(** * The Briefcase Linux bootstrap launchers

    A shallow embedding of the two [main.c] bootstrap templates of
    Briefcase (the Flatpak template and the system-package template) and
    the properties of their start-up sequence, entry-module selection,
    module search path and exit-code classification.

    The launchers are straight-line C programs over the CPython embedding
    API.  A run is determined by what the environment and the interpreter
    answer to each call; these answers are collected in a [World].  The
    program itself is written in a small state-and-termination monad whose
    state holds the two configuration structs, the interpreter's error
    indicator and the trace of observable events. *)

From Stdlib Require Import ZArith List String Ascii Bool Lia DecimalString.
Import ListNotations.

Local Open Scope string_scope.
Local Open Scope list_scope.
Local Open Scope Z_scope.

(** ** C integers *)

(** The launchers run on LP64 Linux: [int] is 32 bits, [long] is 64 bits. *)
Definition INT_MIN : Z := - 2 ^ 31.
Definition INT_MAX : Z := 2 ^ 31 - 1.
Definition LONG_MIN : Z := - 2 ^ 63.
Definition LONG_MAX : Z := 2 ^ 63 - 1.

(** The conversion [(int) v] of a [long] value: reduction modulo [2^32]
    into the signed range. *)
Definition cast_int (v : Z) : Z := (v + 2 ^ 31) mod 2 ^ 32 - 2 ^ 31.

Definition in_int_range (v : Z) : Prop := INT_MIN <= v <= INT_MAX.

(** ** Strings *)

(** The line feed written as [\n] in the C sources. *)
Definition nl : string := String (ascii_of_nat 10) EmptyString.

(** [printf("%d", z)]. *)
Definition string_of_Z (z : Z) : string := NilZero.string_of_int (Z.to_int z).

(** Python's [s.split(sep)] for a one-character separator. *)
Fixpoint split (sep : ascii) (s : string) : list string :=
  match s with
  | EmptyString => [EmptyString]
  | String c s' =>
      if Ascii.eqb c sep then EmptyString :: split sep s'
      else match split sep s' with
           | [] => [String c EmptyString]
           | h :: t => String c h :: t
           end
  end.

Definition slash : ascii := "/"%char.

Fixpoint drop_slashes (l : list ascii) : list ascii :=
  match l with
  | c :: l' => if Ascii.eqb c slash then drop_slashes l' else l
  | [] => []
  end.

Fixpoint drop_component (l : list ascii) : list ascii :=
  match l with
  | c :: l' => if Ascii.eqb c slash then l else drop_component l'
  | [] => []
  end.

(** POSIX [dirname(3)].  A null pointer, the empty string and a path
    without a slash give ["."]; otherwise trailing slashes, the last
    component and the slashes before it are removed, and what remains is
    the result, or ["/"] when nothing remains.  The work is done on the
    reversed character list, so that the end of the path comes first.
    (Where only two leading slashes remain POSIX also allows ["//"]; the
    launcher applies [dirname] to the result of [realpath], which has no
    doubled slash.) *)
Definition dirname (path : option string) : string :=
  match path with
  | None => "."
  | Some p =>
      match rev (list_ascii_of_string p) with
      | [] => "."
      | r =>
          match drop_slashes r with
          | [] => "/"
          | r1 =>
              match drop_component r1 with
              | [] => "."
              | r2 =>
                  match drop_slashes r2 with
                  | [] => "/"
                  | r3 => string_of_list_ascii (rev r3)
                  end
              end
          end
      end
  end.

(** ** Python objects and the error state *)

(** The objects a [SystemExit] can carry, as far as the launcher and the
    interpreter's exit handling distinguish them: [None], an [int] (which
    includes [bool]), and any other object, for which [index] is the value
    its [__index__] method yields, if it has one that succeeds. *)
Inductive PyObject : Type :=
| Py_None
| PyLong (n : Z)
| PyOther (index : option Z).

(** The exception left by a failed call.  For [SystemExit], [code] is
    what [PyObject_GetAttrString(exc_value, "code")] yields: [None] is
    the null pointer. *)
Inductive PyException : Type :=
| SystemExit (code : option PyObject)
| OtherException (name : string).

(** What reaches standard error. *)
Inductive diagnostic : Type :=
| Diag_fatal (err_msg : string)      (* "Fatal Python error: ..." *)
| Diag_traceback (name : string)     (* traceback of an uncaught exception *)
| Diag_exit_payload                  (* the non-integer payload of a SystemExit *)
| Diag_text (s : string).            (* text written by the application *)

(** How the interpreter shows an error.  [PyErr_Print] hands an
    exception to [sys.excepthook] and writes the payload of an exit
    request to [sys.stderr]; as the interpreter sets them up, these
    print to standard error, but the entry module may have replaced
    them, and then [output] is the text that reaches standard error
    instead, if any does. *)
Inductive ErrorDisplay : Type :=
| Display_default
| Display_replaced (output : option string).

(** The state the failed call leaves the interpreter in: the exception
    with its traceback, how errors are displayed, and whether the
    finalization of the interpreter will succeed ([Py_FinalizeEx]
    returning 0) when the interpreter itself ends the process. *)
Record PyErr : Type := {
  exc_value : PyException;
  exc_traceback : bool;       (* [false]: the traceback pointer is null *)
  display : ErrorDisplay;
  finalization_ok : bool
}.

(** [result] of [PyObject_Call]: non-null, or null with the error set. *)
Inductive CallResult : Type :=
| Call_returned
| Call_raised (e : PyErr).

(** [PyErr_GivenExceptionMatches(exc_value, PyExc_SystemExit)]. *)
Definition matches_SystemExit (v : PyException) : bool :=
  match v with SystemExit _ => true | OtherException _ => false end.

(** The value of [PyLong_AsLong]: the integer (of the object or of its
    [__index__]) when it fits a [long]; [None] stands for the error
    return, where the C function yields [-1] and sets an exception. *)
Definition PyLong_AsLong_value (o : PyObject) : option Z :=
  match o with
  | PyLong n | PyOther (Some n) =>
      if (LONG_MIN <=? n) && (n <=? LONG_MAX) then Some n else None
  | Py_None | PyOther None => None
  end.

(** The C return value of [PyLong_AsLong(o)]. *)
Definition PyLong_AsLong_result (o : PyObject) : Z :=
  match PyLong_AsLong_value o with
  | Some v => v
  | None => -1
  end.

(** [(int) PyLong_AsLong(o)], the integer a payload converts to. *)
Definition converted (o : PyObject) : Z := cast_int (PyLong_AsLong_result o).

(** ** Interpreter configuration *)

Inductive PyStatus : Type :=
| PyStatus_Ok
| PyStatus_Error (err_msg : string)
| PyStatus_Exit (exitcode : Z).

Definition PyStatus_Exception (status : PyStatus) : bool :=
  match status with PyStatus_Ok => false | _ => true end.

Record PyPreConfig : Type := {
  pre_isolated : Z;
  pre_use_environment : Z;
  utf8_mode : Z
}.

Record PyConfig : Type := {
  isolated : Z;
  use_environment : Z;
  user_site_directory : Z;
  site_import : Z;
  buffered_stdio : Z;
  write_bytecode : Z;
  module_search_paths_set : Z;
  module_search_paths : list string;
  home : option string;
  run_module : option string;
  argv : list string
}.

(** ** Runs *)

(** What a run does that can be observed from outside or that a property
    below speaks about, in program order. *)
Inductive event : Type :=
| Ev_printf (s : string)
| Ev_fflush_stdout
| Ev_fflush_stderr
| Ev_stderr (d : diagnostic)
| Ev_Py_PreInitialize (pc : PyPreConfig)
| Ev_PyConfig_Clear
| Ev_PyMem_RawFree
| Ev_Py_InitializeFromConfig (c : PyConfig)
| Ev_PyObject_Call (app_module : string)
| Ev_PyErr_Restore
| Ev_PyErr_Print
| Ev_Py_Finalize              (* [Py_Finalize()] called by the launcher *)
| Ev_Py_FinalizeEx.           (* finalization inside [Py_Exit] *)

(** How the process ends. *)
Inductive Termination : Type :=
| Returned (ret : Z)          (* [return ret;] from [main] *)
| Exited (code : Z)           (* [exit(code)] called by the launcher *)
| RuntimeExited (code : Z)    (* [exit(code)] called inside the interpreter *)
| Aborted.                    (* fatal error inside the interpreter *)

Definition exit_code (t : Termination) : option Z :=
  match t with
  | Returned c | Exited c | RuntimeExited c => Some c
  | Aborted => None
  end.

(** The answers of the environment and of the interpreter in one run. *)
Record World : Type := {
  w_argv : list string;
  w_getenv_BRIEFCASE_MAIN_MODULE : option string;
  w_realpath_exe : option string;       (* [realpath("/proc/self/exe", NULL)] *)
  w_preinit : PyStatus;
  w_set_home : PyStatus;
  w_set_run_module : PyStatus;
  w_read : PyStatus;
  w_append_stdlib_zip : PyStatus;
  w_append_stdlib : PyStatus;
  w_append_dynload : PyStatus;
  w_append_app_packages : PyStatus;
  w_append_app : PyStatus;
  w_set_argv : PyStatus;
  w_initialize : PyStatus;
  w_import_runpy : bool;                (* [module != NULL] *)
  w_getattr_run_module : bool;          (* [module_attr != NULL] *)
  w_unicode_app_module : bool;          (* [app_module != NULL] *)
  w_build_args : bool;                  (* [method_args != NULL] *)
  w_call : CallResult
}.

(** The values substituted into the templates at packaging time. *)
Record Cookiecutter : Type := {
  module_name : string;
  python_version : string;
  lib_dir : string;
  app_name : string
}.

(** ** The launcher monad *)

Record LState : Type := {
  preconfig : PyPreConfig;
  config : PyConfig;
  err_indicator : option PyErr;
  trace : list event
}.

Definition M (A : Type) : Type := LState -> LState * (A + Termination).

Definition ret {A} (a : A) : M A := fun s => (s, inl a).

Definition bind {A B} (m : M A) (f : A -> M B) : M B :=
  fun s => match m s with
           | (s', inl a) => f a s'
           | (s', inr t) => (s', inr t)
           end.

Notation "x <- c1 ;; c2" := (bind c1 (fun x => c2))
  (at level 61, c1 at next level, right associativity).
Notation "c1 ;; c2" := (bind c1 (fun _ => c2))
  (at level 61, right associativity).

Definition terminate {A} (t : Termination) : M A := fun s => (s, inr t).

Definition exit {A} (code : Z) : M A := terminate (Exited code).

Definition when (b : bool) (m : M unit) : M unit :=
  if b then m else ret tt.

Definition emit (e : event) : M unit :=
  fun s => ({| preconfig := preconfig s; config := config s;
               err_indicator := err_indicator s;
               trace := trace s ++ [e] |}, inl tt).

Definition set_preconfig (f : PyPreConfig -> PyPreConfig) : M unit :=
  fun s => ({| preconfig := f (preconfig s); config := config s;
               err_indicator := err_indicator s; trace := trace s |}, inl tt).

Definition set_config (f : PyConfig -> PyConfig) : M unit :=
  fun s => ({| preconfig := preconfig s; config := f (config s);
               err_indicator := err_indicator s; trace := trace s |}, inl tt).

Definition set_err (e : option PyErr) : M unit :=
  fun s => ({| preconfig := preconfig s; config := config s;
               err_indicator := e; trace := trace s |}, inl tt).

Definition get_preconfig : M PyPreConfig := fun s => (s, inl (preconfig s)).
Definition get_config : M PyConfig := fun s => (s, inl (config s)).
Definition get_err : M (option PyErr) := fun s => (s, inl (err_indicator s)).

Definition printf (s : string) : M unit := emit (Ev_printf s).

(** ** The embedding API, as the launchers use it

    Each call that can fail takes the answer the [World] gives for it.
    The configuration setters store their argument when they succeed. *)

Definition PyPreConfig_InitIsolatedConfig : M unit :=
  set_preconfig (fun _ =>
    {| pre_isolated := 1; pre_use_environment := 0; utf8_mode := 0 |}).

Definition PyConfig_InitIsolatedConfig : M unit :=
  set_config (fun _ =>
    {| isolated := 1; use_environment := 0; user_site_directory := 0;
       site_import := 1; buffered_stdio := 1; write_bytecode := 1;
       module_search_paths_set := 0; module_search_paths := [];
       home := None; run_module := None; argv := [] |}).

Definition set_utf8_mode (v : Z) : M unit :=
  set_preconfig (fun pc =>
    {| pre_isolated := pre_isolated pc;
       pre_use_environment := pre_use_environment pc; utf8_mode := v |}).

Definition set_buffered_stdio (v : Z) : M unit :=
  set_config (fun c =>
    {| isolated := isolated c; use_environment := use_environment c;
       user_site_directory := user_site_directory c;
       site_import := site_import c; buffered_stdio := v;
       write_bytecode := write_bytecode c;
       module_search_paths_set := module_search_paths_set c;
       module_search_paths := module_search_paths c;
       home := home c; run_module := run_module c; argv := argv c |}).

Definition set_write_bytecode (v : Z) : M unit :=
  set_config (fun c =>
    {| isolated := isolated c; use_environment := use_environment c;
       user_site_directory := user_site_directory c;
       site_import := site_import c; buffered_stdio := buffered_stdio c;
       write_bytecode := v;
       module_search_paths_set := module_search_paths_set c;
       module_search_paths := module_search_paths c;
       home := home c; run_module := run_module c; argv := argv c |}).

Definition set_module_search_paths_set (v : Z) : M unit :=
  set_config (fun c =>
    {| isolated := isolated c; use_environment := use_environment c;
       user_site_directory := user_site_directory c;
       site_import := site_import c; buffered_stdio := buffered_stdio c;
       write_bytecode := write_bytecode c;
       module_search_paths_set := v;
       module_search_paths := module_search_paths c;
       home := home c; run_module := run_module c; argv := argv c |}).

Definition set_site_import (v : Z) : M unit :=
  set_config (fun c =>
    {| isolated := isolated c; use_environment := use_environment c;
       user_site_directory := user_site_directory c;
       site_import := v; buffered_stdio := buffered_stdio c;
       write_bytecode := write_bytecode c;
       module_search_paths_set := module_search_paths_set c;
       module_search_paths := module_search_paths c;
       home := home c; run_module := run_module c; argv := argv c |}).

Definition Py_PreInitialize (answer : PyStatus) : M PyStatus :=
  pc <- get_preconfig ;;
  emit (Ev_Py_PreInitialize pc) ;;
  ret answer.

(** [wtmp_str = Py_DecodeLocale(path, NULL)]; the decoded string is the
    same text. *)
Definition Py_DecodeLocale (s : string) : M string := ret s.

Definition PyMem_RawFree : M unit := emit Ev_PyMem_RawFree.

(** [PyConfig_SetString(&config, &config.home, str)]. *)
Definition PyConfig_SetString_home (answer : PyStatus) (str : string)
  : M PyStatus :=
  when (negb (PyStatus_Exception answer))
    (set_config (fun c =>
      {| isolated := isolated c; use_environment := use_environment c;
         user_site_directory := user_site_directory c;
         site_import := site_import c; buffered_stdio := buffered_stdio c;
         write_bytecode := write_bytecode c;
         module_search_paths_set := module_search_paths_set c;
         module_search_paths := module_search_paths c;
         home := Some str; run_module := run_module c; argv := argv c |})) ;;
  ret answer.

(** [PyConfig_SetBytesString(&config, &config.run_module, str)]. *)
Definition PyConfig_SetBytesString_run_module (answer : PyStatus)
  (str : string) : M PyStatus :=
  when (negb (PyStatus_Exception answer))
    (set_config (fun c =>
      {| isolated := isolated c; use_environment := use_environment c;
         user_site_directory := user_site_directory c;
         site_import := site_import c; buffered_stdio := buffered_stdio c;
         write_bytecode := write_bytecode c;
         module_search_paths_set := module_search_paths_set c;
         module_search_paths := module_search_paths c;
         home := home c; run_module := Some str; argv := argv c |})) ;;
  ret answer.

(** [PyConfig_Read(&config)]: fields that are already set are left as
    they are, and with [module_search_paths_set] the search path is one
    of them. *)
Definition PyConfig_Read (answer : PyStatus) : M PyStatus := ret answer.

(** [PyWideStringList_Append(&config.module_search_paths, item)]. *)
Definition PyWideStringList_Append_module_search_paths (answer : PyStatus)
  (item : string) : M PyStatus :=
  when (negb (PyStatus_Exception answer))
    (set_config (fun c =>
      {| isolated := isolated c; use_environment := use_environment c;
         user_site_directory := user_site_directory c;
         site_import := site_import c; buffered_stdio := buffered_stdio c;
         write_bytecode := write_bytecode c;
         module_search_paths_set := module_search_paths_set c;
         module_search_paths := module_search_paths c ++ [item];
         home := home c; run_module := run_module c; argv := argv c |})) ;;
  ret answer.

(** [PyConfig_SetBytesArgv(&config, argc, argv)]. *)
Definition PyConfig_SetBytesArgv (answer : PyStatus) (args : list string)
  : M PyStatus :=
  when (negb (PyStatus_Exception answer))
    (set_config (fun c =>
      {| isolated := isolated c; use_environment := use_environment c;
         user_site_directory := user_site_directory c;
         site_import := site_import c; buffered_stdio := buffered_stdio c;
         write_bytecode := write_bytecode c;
         module_search_paths_set := module_search_paths_set c;
         module_search_paths := module_search_paths c;
         home := home c; run_module := run_module c; argv := args |})) ;;
  ret answer.

(** [Py_InitializeFromConfig(&config)].  What the interpreter itself
    writes to standard error while it initialises is not recorded. *)
Definition Py_InitializeFromConfig (answer : PyStatus) : M PyStatus :=
  c <- get_config ;;
  emit (Ev_Py_InitializeFromConfig c) ;;
  ret answer.

(** [PyConfig_Clear(&config)] releases the strings and lists held by the
    configuration. *)
Definition PyConfig_Clear : M unit :=
  emit Ev_PyConfig_Clear ;;
  set_config (fun c =>
    {| isolated := isolated c; use_environment := use_environment c;
       user_site_directory := user_site_directory c;
       site_import := site_import c; buffered_stdio := buffered_stdio c;
       write_bytecode := write_bytecode c;
       module_search_paths_set := module_search_paths_set c;
       module_search_paths := [];
       home := None; run_module := None; argv := [] |}).

(** [Py_ExitStatusException(status)]: an exit status ends the process
    with its own code; an error status writes the fatal-error message to
    standard error and ends the process with code 1.  It must not be
    called with a success status, which is a fatal error. *)
Definition Py_ExitStatusException {A} (status : PyStatus) : M A :=
  match status with
  | PyStatus_Exit exitcode => terminate (RuntimeExited exitcode)
  | PyStatus_Error err_msg =>
      emit (Ev_stderr (Diag_fatal err_msg)) ;;
      terminate (RuntimeExited 1)
  | PyStatus_Ok => terminate Aborted
  end.

(** [result = PyObject_Call(module_attr, method_args, NULL)]: runs
    [runpy._run_module_as_main(app_module, 0)]; [true] is a non-null
    result, and a null result leaves the exception in the error
    indicator. *)
Definition PyObject_Call_run_module (answer : CallResult)
  (app_module : string) : M bool :=
  emit (Ev_PyObject_Call app_module) ;;
  match answer with
  | Call_returned => ret true
  | Call_raised e => set_err (Some e) ;; ret false
  end.

(** [PyErr_Fetch(&exc_type, &exc_value, &exc_traceback)] hands over the
    error indicator and clears it; with no error set, the three pointers
    are null. *)
Definition PyErr_Fetch : M (option PyErr) :=
  e <- get_err ;;
  set_err None ;;
  ret e.

Definition PyErr_NormalizeException : M unit := ret tt.

(** [exc_traceback == NULL]. *)
Definition traceback_is_null (fetched : option PyErr) : bool :=
  match fetched with
  | Some e => negb (exc_traceback e)
  | None => true
  end.

(** [PyErr_GivenExceptionMatches(exc_value, PyExc_SystemExit)]; a null
    [exc_value] matches nothing. *)
Definition PyErr_GivenExceptionMatches_SystemExit (fetched : option PyErr)
  : bool :=
  match fetched with
  | Some e => matches_SystemExit (exc_value e)
  | None => false
  end.

Definition code_attribute (v : PyException) : option PyObject :=
  match v with
  | SystemExit code => code
  | OtherException _ => None
  end.

(** [PyObject_GetAttrString(exc_value, "code")]; a null result leaves an
    [AttributeError] in the error indicator. *)
Definition PyObject_GetAttrString_code (fetched : option PyErr)
  : M (option PyObject) :=
  match fetched with
  | Some e =>
      match code_attribute (exc_value e) with
      | Some o => ret (Some o)
      | None =>
          set_err (Some {| exc_value := OtherException "AttributeError";
                           exc_traceback := false;
                           display := display e;
                           finalization_ok := finalization_ok e |}) ;;
          ret None
      end
  | None => ret None
  end.

(** [PyLong_AsLong(o)]: on error the result is [-1] and an exception is
    left in the error indicator. *)
Definition PyLong_AsLong (o : PyObject) : M Z :=
  match PyLong_AsLong_value o with
  | Some _ => ret tt
  | None =>
      set_err (Some {| exc_value := OtherException "TypeError";
                       exc_traceback := false;
                       display := Display_default;
                       finalization_ok := true |})
  end ;;
  ret (PyLong_AsLong_result o).

Definition PyErr_Restore (fetched : option PyErr) : M unit :=
  emit Ev_PyErr_Restore ;;
  set_err fetched.

Fixpoint emit_all (l : list event) : M unit :=
  match l with
  | [] => ret tt
  | e :: l' => emit e ;; emit_all l'
  end.

(** What showing [d] writes to standard error. *)
Definition display_events (how : ErrorDisplay) (d : diagnostic)
  : list event :=
  match how with
  | Display_default => [Ev_stderr d]
  | Display_replaced (Some s) => [Ev_stderr (Diag_text s)]
  | Display_replaced None => []
  end.

(** [Py_Exit(sts)]: finalizes the interpreter and calls [exit(sts)],
    with 120 in place of [sts] when the finalization fails. *)
Definition Py_Exit {A} (sts : Z) (finalization : bool) : M A :=
  emit Ev_Py_FinalizeEx ;;
  terminate (RuntimeExited (if finalization then sts else 120)).

(** [PyErr_Print()].  Any exception but [SystemExit] is handed to
    [sys.excepthook], which by default writes the traceback to standard
    error, and the error indicator is cleared.  For [SystemExit] no
    traceback is printed and the interpreter ends the process itself
    (the launchers say so where they call it: "In case of SystemExit,
    this will call exit()") through [Py_Exit], with the exit code the
    [SystemExit] instance specifies: 0 when its code is [None], the
    integer converted as by [(int) PyLong_AsLong] when it is an [int],
    and otherwise the payload is written to [sys.stderr] and the code
    is 1.  Calling it with no error set is a fatal error. *)
Definition PyErr_Print : M unit :=
  emit Ev_PyErr_Print ;;
  cur <- get_err ;;
  match cur with
  | None => terminate Aborted
  | Some e =>
      match exc_value e with
      | OtherException name =>
          emit_all (display_events (display e) (Diag_traceback name)) ;;
          set_err None
      | SystemExit (Some Py_None) => Py_Exit 0 (finalization_ok e)
      | SystemExit (Some (PyLong n)) =>
          Py_Exit (converted (PyLong n)) (finalization_ok e)
      | SystemExit (Some (PyOther _)) | SystemExit None =>
          emit_all (display_events (display e) Diag_exit_payload) ;;
          Py_Exit 1 (finalization_ok e)
      end
  end.

Definition Py_Finalize : M unit := emit Ev_Py_Finalize.

(** ** Whole runs *)

Record Run : Type := {
  events : list event;
  finish : Termination
}.

(** The locals [preconfig] and [config] hold nothing before they are
    initialised, and no error is set. *)
Definition initial_state : LState :=
  {| preconfig := {| pre_isolated := 0; pre_use_environment := 0;
                     utf8_mode := 0 |};
     config := {| isolated := 0; use_environment := 0;
                  user_site_directory := 0; site_import := 0;
                  buffered_stdio := 0; write_bytecode := 0;
                  module_search_paths_set := 0; module_search_paths := [];
                  home := None; run_module := None; argv := [] |};
     err_indicator := None;
     trace := [] |}.

Definition run (m : M Z) : Run :=
  match m initial_state with
  | (s, inl r) => {| events := trace s; finish := Returned r |}
  | (s, inr t) => {| events := trace s; finish := t |}
  end.

Definition separator : string :=
  "---------------------------------------------------------------------------".

(** ** The Flatpak launcher: [briefcase-linux-flatpak-template] *)

Module Flatpak.

(** [''.join(cookiecutter.python_version.split('.')[:2])] *)
Definition py_tag_nodot (ck : Cookiecutter) : string :=
  String.concat "" (firstn 2 (split "."%char (python_version ck))).

(** ['.'.join(cookiecutter.python_version.split('.')[:2])] *)
Definition py_tag (ck : Cookiecutter) : string :=
  String.concat "." (firstn 2 (split "."%char (python_version ck))).

Definition python_home : string := "/app".
Definition stdlib_zip_path (ck : Cookiecutter) : string :=
  "/app/lib/python" ++ py_tag_nodot ck ++ ".zip".
Definition stdlib_path (ck : Cookiecutter) : string :=
  "/app/lib/python" ++ py_tag ck.
Definition dynload_path (ck : Cookiecutter) : string :=
  "/app/lib/python" ++ py_tag ck ++ "/lib-dynload".
Definition app_packages_path : string := "/app/briefcase/app_packages".
Definition app_path : string := "/app/briefcase/app".

Definition main (ck : Cookiecutter) (w : World) : M Z :=
  (* Generate an isolated Python configuration. *)
  PyPreConfig_InitIsolatedConfig ;;
  PyConfig_InitIsolatedConfig ;;
  set_utf8_mode 1 ;;
  set_buffered_stdio 0 ;;
  set_write_bytecode 0 ;;
  set_module_search_paths_set 1 ;;

  printf ("Pre-initializing Python runtime..." ++ nl) ;;
  status <- Py_PreInitialize (w_preinit w) ;;
  when (PyStatus_Exception status)
    (PyConfig_Clear ;; Py_ExitStatusException status) ;;

  (* Set the home for the Python interpreter *)
  printf ("PYTHONHOME: " ++ python_home ++ nl) ;;
  wtmp_str <- Py_DecodeLocale python_home ;;
  status <- PyConfig_SetString_home (w_set_home w) wtmp_str ;;
  when (PyStatus_Exception status)
    (PyConfig_Clear ;; Py_ExitStatusException status) ;;
  PyMem_RawFree ;;

  (* Determine the app module name. *)
  let app_module_name :=
    match w_getenv_BRIEFCASE_MAIN_MODULE w with
    | None => module_name ck
    | Some v => v
    end in
  status <- PyConfig_SetBytesString_run_module (w_set_run_module w)
              app_module_name ;;
  when (PyStatus_Exception status)
    (PyConfig_Clear ;; Py_ExitStatusException status) ;;

  (* Read the site config *)
  status <- PyConfig_Read (w_read w) ;;
  when (PyStatus_Exception status)
    (PyConfig_Clear ;; Py_ExitStatusException status) ;;

  (* Set the full module path. *)
  printf ("PYTHONPATH:" ++ nl) ;;
  (* The .zip form of the stdlib *)
  let path := stdlib_zip_path ck in
  printf ("- " ++ path ++ nl) ;;
  wtmp_str <- Py_DecodeLocale path ;;
  status <- PyWideStringList_Append_module_search_paths
              (w_append_stdlib_zip w) wtmp_str ;;
  when (PyStatus_Exception status)
    (PyConfig_Clear ;; Py_ExitStatusException status) ;;
  PyMem_RawFree ;;

  (* The unpacked form of the stdlib *)
  let path := stdlib_path ck in
  printf ("- " ++ path ++ nl) ;;
  wtmp_str <- Py_DecodeLocale path ;;
  status <- PyWideStringList_Append_module_search_paths
              (w_append_stdlib w) wtmp_str ;;
  when (PyStatus_Exception status)
    (PyConfig_Clear ;; Py_ExitStatusException status) ;;
  PyMem_RawFree ;;

  (* Add the stdlib binary modules path *)
  let path := dynload_path ck in
  printf ("- " ++ path ++ nl) ;;
  wtmp_str <- Py_DecodeLocale path ;;
  status <- PyWideStringList_Append_module_search_paths
              (w_append_dynload w) wtmp_str ;;
  when (PyStatus_Exception status)
    (PyConfig_Clear ;; Py_ExitStatusException status) ;;
  PyMem_RawFree ;;

  (* Add the app_packages path *)
  let path := app_packages_path in
  printf ("- " ++ path ++ nl) ;;
  wtmp_str <- Py_DecodeLocale path ;;
  status <- PyWideStringList_Append_module_search_paths
              (w_append_app_packages w) wtmp_str ;;
  when (PyStatus_Exception status)
    (PyConfig_Clear ;; Py_ExitStatusException status) ;;
  PyMem_RawFree ;;

  (* Add the app path *)
  let path := app_path in
  printf ("- " ++ path ++ nl) ;;
  wtmp_str <- Py_DecodeLocale path ;;
  status <- PyWideStringList_Append_module_search_paths
              (w_append_app w) wtmp_str ;;
  when (PyStatus_Exception status)
    (PyConfig_Clear ;; Py_ExitStatusException status) ;;
  PyMem_RawFree ;;

  printf ("Configure argc/argv..." ++ nl) ;;
  status <- PyConfig_SetBytesArgv (w_set_argv w) (w_argv w) ;;
  when (PyStatus_Exception status)
    (PyConfig_Clear ;; Py_ExitStatusException status) ;;

  printf ("Initializing Python runtime..." ++ nl) ;;
  status <- Py_InitializeFromConfig (w_initialize w) ;;
  when (PyStatus_Exception status)
    (PyConfig_Clear ;; Py_ExitStatusException status) ;;

  (* Start the app module. *)
  printf ("Running app module: " ++ app_module_name ++ nl) ;;
  when (negb (w_import_runpy w)) (exit (-2)) ;;
  when (negb (w_getattr_run_module w)) (exit (-3)) ;;
  when (negb (w_unicode_app_module w)) (exit (-3)) ;;
  when (negb (w_build_args w)) (exit (-4)) ;;

  (* Print a separator, then flush stdout/stderr. *)
  printf (separator ++ nl) ;;
  emit Ev_fflush_stdout ;;
  emit Ev_fflush_stderr ;;

  (* Invoke the app module *)
  result <- PyObject_Call_run_module (w_call w) app_module_name ;;

  ret_ <-
    (if negb result then
       (* Retrieve the current error state of the interpreter. *)
       fetched <- PyErr_Fetch ;;
       PyErr_NormalizeException ;;
       when (traceback_is_null fetched) (exit (-5)) ;;
       ret_ <-
         (if PyErr_GivenExceptionMatches_SystemExit fetched then
            systemExit_code <- PyObject_GetAttrString_code fetched ;;
            match systemExit_code with
            | None =>
                printf ("Could not determine exit code" ++ nl) ;;
                ret (-10)
            | Some o =>
                v <- PyLong_AsLong o ;;
                ret (cast_int v)
            end
          else ret (-6)) ;;
       when (negb (ret_ =? 0))
         (printf ("Application quit abnormally (Exit code "
                  ++ string_of_Z ret_ ++ ")!" ++ nl) ;;
          (* Restore the error state of the interpreter. *)
          PyErr_Restore fetched ;;
          (* Print exception to stderr.
             In case of SystemExit, this will call exit() *)
          PyErr_Print ;;
          exit ret_) ;;
       ret ret_
     else ret 0) ;;

  Py_Finalize ;;
  ret ret_.

Definition launch (ck : Cookiecutter) (w : World) : Run := run (main ck w).

End Flatpak.

(** ** The system-package launcher: [briefcase-linux-system-template] *)

Module System.

(** [PY_TAG] is a macro of [pyversion.h], a header generated next to
    [main.c]; its value is a parameter here. *)

Definition install_path (w : World) : string :=
  let exe_path := w_realpath_exe w in
  let bin_path := dirname exe_path in
  dirname (Some bin_path).

Definition stdlib_path (ck : Cookiecutter) (PY_TAG : string) : string :=
  "/usr/" ++ lib_dir ck ++ "/python" ++ PY_TAG.
Definition dynload_path (ck : Cookiecutter) (PY_TAG : string) : string :=
  "/usr/" ++ lib_dir ck ++ "/python" ++ PY_TAG ++ "/lib-dynload".
Definition app_suffix (ck : Cookiecutter) : string :=
  "/" ++ lib_dir ck ++ "/" ++ app_name ck ++ "/app".
Definition app_packages_suffix (ck : Cookiecutter) : string :=
  "/" ++ lib_dir ck ++ "/" ++ app_name ck ++ "/app_packages".

(** [PATH_MAX] of [<limits.h>] on Linux. *)
Definition PATH_MAX : Z := 4096.

(** [strcpy(path, src)] into [path = malloc(PATH_MAX)]: the content of
    the buffer, or [None] when the string with its terminator does not
    fit and the copy writes past the end of the buffer, which is
    undefined behaviour. *)
Definition strcpy (src : string) : option string :=
  if Z.of_nat (String.length src) <? PATH_MAX then Some src else None.

(** [strcat(path, src)] onto a buffer that holds [dst]. *)
Definition strcat (dst : option string) (src : string) : option string :=
  match dst with
  | Some d =>
      if Z.of_nat (String.length (d ++ src)) <? PATH_MAX
      then Some (d ++ src)%string else None
  | None => None
  end.

(** The four contents of the buffer [path], in program order. *)
Definition path_buffer (ck : Cookiecutter) (PY_TAG : string) (w : World)
  : list (option string) :=
  [strcpy (stdlib_path ck PY_TAG);
   strcpy (dynload_path ck PY_TAG);
   strcat (strcpy (install_path w)) (app_suffix ck);
   strcat (strcpy (install_path w)) (app_packages_suffix ck)].

Definition is_overflow (content : option string) : bool :=
  match content with Some _ => false | None => true end.

(** One of the copies writes past the end of the buffer. *)
Definition overflows (ck : Cookiecutter) (PY_TAG : string) (w : World)
  : bool :=
  existsb is_overflow (path_buffer ck PY_TAG w).

(** [main] takes the content of the buffer to be the string that is
    copied into it: it describes the runs in which no copy overflows. *)
Definition main (ck : Cookiecutter) (PY_TAG : string) (w : World) : M Z :=
  (* Establish where the executable is located;
     other application paths will be computed relative to this location *)
  let install_path := install_path w in
  printf ("Install path: " ++ install_path ++ nl) ;;

  (* Generate an isolated Python configuration. *)
  PyPreConfig_InitIsolatedConfig ;;
  PyConfig_InitIsolatedConfig ;;
  set_utf8_mode 1 ;;
  set_buffered_stdio 0 ;;
  set_write_bytecode 0 ;;
  set_module_search_paths_set 1 ;;
  set_site_import 0 ;;

  printf ("Pre-initializing Python runtime..." ++ nl) ;;
  status <- Py_PreInitialize (w_preinit w) ;;
  when (PyStatus_Exception status)
    (PyConfig_Clear ;; Py_ExitStatusException status) ;;

  (* Determine the app module name. *)
  let app_module_name :=
    match w_getenv_BRIEFCASE_MAIN_MODULE w with
    | None => module_name ck
    | Some v => v
    end in
  status <- PyConfig_SetBytesString_run_module (w_set_run_module w)
              app_module_name ;;
  when (PyStatus_Exception status)
    (PyConfig_Clear ;; Py_ExitStatusException status) ;;

  (* Read the site config *)
  status <- PyConfig_Read (w_read w) ;;
  when (PyStatus_Exception status)
    (PyConfig_Clear ;; Py_ExitStatusException status) ;;

  (* Set the full module path. *)
  printf ("PYTHONPATH:" ++ nl) ;;

  (* The unpacked form of the stdlib *)
  let path := stdlib_path ck PY_TAG in
  printf ("- " ++ path ++ nl) ;;
  wtmp_str <- Py_DecodeLocale path ;;
  status <- PyWideStringList_Append_module_search_paths
              (w_append_stdlib w) wtmp_str ;;
  when (PyStatus_Exception status)
    (PyConfig_Clear ;; Py_ExitStatusException status) ;;
  PyMem_RawFree ;;

  (* Add the stdlib binary modules path *)
  let path := dynload_path ck PY_TAG in
  printf ("- " ++ path ++ nl) ;;
  wtmp_str <- Py_DecodeLocale path ;;
  status <- PyWideStringList_Append_module_search_paths
              (w_append_dynload w) wtmp_str ;;
  when (PyStatus_Exception status)
    (PyConfig_Clear ;; Py_ExitStatusException status) ;;
  PyMem_RawFree ;;

  (* Add the app path *)
  let path := (install_path ++ app_suffix ck)%string in
  printf ("- " ++ path ++ nl) ;;
  wtmp_str <- Py_DecodeLocale path ;;
  status <- PyWideStringList_Append_module_search_paths
              (w_append_app w) wtmp_str ;;
  when (PyStatus_Exception status)
    (PyConfig_Clear ;; Py_ExitStatusException status) ;;
  PyMem_RawFree ;;

  (* Add the app_packages path *)
  let path := (install_path ++ app_packages_suffix ck)%string in
  printf ("- " ++ path ++ nl) ;;
  wtmp_str <- Py_DecodeLocale path ;;
  status <- PyWideStringList_Append_module_search_paths
              (w_append_app_packages w) wtmp_str ;;
  when (PyStatus_Exception status)
    (PyConfig_Clear ;; Py_ExitStatusException status) ;;
  PyMem_RawFree ;;

  printf ("Configure argc/argv..." ++ nl) ;;
  status <- PyConfig_SetBytesArgv (w_set_argv w) (w_argv w) ;;
  when (PyStatus_Exception status)
    (PyConfig_Clear ;; Py_ExitStatusException status) ;;

  printf ("Initializing Python runtime..." ++ nl) ;;
  status <- Py_InitializeFromConfig (w_initialize w) ;;
  when (PyStatus_Exception status)
    (PyConfig_Clear ;; Py_ExitStatusException status) ;;

  (* Start the app module. *)
  printf ("Running app module: " ++ app_module_name ++ nl) ;;
  when (negb (w_import_runpy w)) (exit (-2)) ;;
  when (negb (w_getattr_run_module w)) (exit (-3)) ;;
  when (negb (w_unicode_app_module w)) (exit (-3)) ;;
  when (negb (w_build_args w)) (exit (-4)) ;;

  (* Print a separator, then flush stdout/stderr. *)
  printf (separator ++ nl) ;;
  emit Ev_fflush_stdout ;;
  emit Ev_fflush_stderr ;;

  (* Invoke the app module *)
  result <- PyObject_Call_run_module (w_call w) app_module_name ;;

  ret_ <-
    (if negb result then
       (* Retrieve the current error state of the interpreter. *)
       fetched <- PyErr_Fetch ;;
       PyErr_NormalizeException ;;
       when (traceback_is_null fetched) (exit (-5)) ;;
       ret_ <-
         (if PyErr_GivenExceptionMatches_SystemExit fetched then
            systemExit_code <- PyObject_GetAttrString_code fetched ;;
            match systemExit_code with
            | None =>
                printf ("Could not determine exit code" ++ nl) ;;
                ret (-10)
            | Some o =>
                v <- PyLong_AsLong o ;;
                ret (cast_int v)
            end
          else ret (-6)) ;;
       when (negb (ret_ =? 0))
         (printf ("Application quit abnormally (Exit code "
                  ++ string_of_Z ret_ ++ ")!" ++ nl) ;;
          (* Restore the error state of the interpreter. *)
          PyErr_Restore fetched ;;
          (* Print exception to stderr.
             In case of SystemExit, this will call exit() *)
          PyErr_Print ;;
          exit ret_) ;;
       ret ret_
     else ret 0) ;;

  Py_Finalize ;;
  ret ret_.

Definition launch (ck : Cookiecutter) (PY_TAG : string) (w : World) : Run :=
  run (main ck PY_TAG w).

End System.

(** ** Both launchers under one name *)

Inductive Variant : Type :=
| Self_contained                       (* the Flatpak template *)
| System_installed (PY_TAG : string).  (* the system-package template *)

Definition launch (v : Variant) (ck : Cookiecutter) (w : World) : Run :=
  match v with
  | Self_contained => Flatpak.launch ck w
  | System_installed PY_TAG => System.launch ck PY_TAG w
  end.

Definition ok (status : PyStatus) : bool := negb (PyStatus_Exception status).

(** The start-up steps of each launcher, in program order, with the
    answer the world gives to each. *)
Definition setup_answers (v : Variant) (w : World) : list PyStatus :=
  match v with
  | Self_contained =>
      [w_preinit w; w_set_home w; w_set_run_module w; w_read w;
       w_append_stdlib_zip w; w_append_stdlib w; w_append_dynload w;
       w_append_app_packages w; w_append_app w; w_set_argv w; w_initialize w]
  | System_installed _ =>
      [w_preinit w; w_set_run_module w; w_read w;
       w_append_stdlib w; w_append_dynload w;
       w_append_app w; w_append_app_packages w; w_set_argv w; w_initialize w]
  end.

(** Every configuration step succeeds and the call of
    [runpy._run_module_as_main] can be set up. *)
Definition reaches_call (v : Variant) (w : World) : bool :=
  forallb ok (setup_answers v w)
  && w_import_runpy w && w_getattr_run_module w
  && w_unicode_app_module w && w_build_args w.

Definition is_call (e : event) : bool :=
  match e with Ev_PyObject_Call _ => true | _ => false end.

(** The run got as far as invoking the entry module. *)
Definition invoked (r : Run) : bool := existsb is_call (events r).

Definition is_clear (e : event) : bool :=
  match e with Ev_PyConfig_Clear => true | _ => false end.

Definition is_finalize (e : event) : bool :=
  match e with Ev_Py_Finalize => true | _ => false end.

Definition is_stderr (e : event) : bool :=
  match e with Ev_stderr _ => true | _ => false end.

(** The launcher itself called [Py_Finalize]. *)
Definition finalized (r : Run) : bool := existsb is_finalize (events r).

(** The events that follow the first event satisfying [p], if there is
    one. *)
Fixpoint after (p : event -> bool) (l : list event) : option (list event) :=
  match l with
  | [] => None
  | e :: l' => if p e then Some l' else after p l'
  end.

(** The module handed to [runpy._run_module_as_main]. *)
Fixpoint called_module (l : list event) : option string :=
  match l with
  | [] => None
  | Ev_PyObject_Call m :: _ => Some m
  | _ :: l' => called_module l'
  end.

(** The configuration the interpreter was initialised from. *)
Fixpoint initialized_from (l : list event) : option PyConfig :=
  match l with
  | [] => None
  | Ev_Py_InitializeFromConfig c :: _ => Some c
  | _ :: l' => initialized_from l'
  end.

(** ** Concrete runs *)

Definition ck_helloworld : Cookiecutter :=
  {| module_name := "helloworld"; python_version := "3.11.4";
     lib_dir := "lib"; app_name := "helloworld" |}.

(** A world given by the answers to the start-up steps, numbered in
    the order of the fields of [World]: the configuration steps from 0
    ([Py_PreInitialize]) to 10 ([Py_InitializeFromConfig]), and the steps
    that set up the call from 0 (the import of [runpy]) to 3 (the
    construction of the arguments). *)
Definition world_from (env : option string) (answer : nat -> PyStatus)
  (setup : nat -> bool) (outcome : CallResult) : World :=
  {| w_argv := ["helloworld"];
     w_getenv_BRIEFCASE_MAIN_MODULE := env;
     w_realpath_exe := Some "/usr/bin/helloworld";
     w_preinit := answer 0%nat; w_set_home := answer 1%nat;
     w_set_run_module := answer 2%nat; w_read := answer 3%nat;
     w_append_stdlib_zip := answer 4%nat; w_append_stdlib := answer 5%nat;
     w_append_dynload := answer 6%nat;
     w_append_app_packages := answer 7%nat;
     w_append_app := answer 8%nat; w_set_argv := answer 9%nat;
     w_initialize := answer 10%nat;
     w_import_runpy := setup 0%nat; w_getattr_run_module := setup 1%nat;
     w_unicode_app_module := setup 2%nat; w_build_args := setup 3%nat;
     w_call := outcome |}.

(** A run in which every start-up step succeeds and the entry module
    ends as [outcome] tells. *)
Definition world_of (env : option string) (outcome : CallResult) : World :=
  world_from env (fun _ => PyStatus_Ok) (fun _ => true) outcome.

(** A run in which the configuration step [k] fails with [status]. *)
Definition world_failing_step (k : nat) (status : PyStatus) : World :=
  world_from None (fun i => if Nat.eqb i k then status else PyStatus_Ok)
    (fun _ => true) Call_returned.

(** A run in which step [k] of the set-up of the call fails. *)
Definition world_failing_setup (k : nat) : World :=
  world_from None (fun _ => PyStatus_Ok) (fun i => negb (Nat.eqb i k))
    Call_returned.

(** An exception raised by the entry module: it comes out of Python
    code, so it carries a traceback.  [how] and [fin] tell how the
    interpreter displays errors and whether its finalization will
    succeed. *)
Definition raised_with (how : ErrorDisplay) (fin : bool) (v : PyException)
  : CallResult :=
  Call_raised {| exc_value := v; exc_traceback := true;
                 display := how; finalization_ok := fin |}.

(** The same in an interpreter that displays errors as it was set up
    and finalizes without failure. *)
Definition raised (v : PyException) : CallResult :=
  raised_with Display_default true v.

(** ** Canonical paths *)

Definition nonslash (a : ascii) : bool := negb (Ascii.eqb a slash).

(** A path component: not empty, and without a slash. *)
Definition valid_component (c : string) : bool :=
  negb (String.eqb c "") && forallb nonslash (list_ascii_of_string c).

Fixpoint join_components (cs : list string) : string :=
  match cs with
  | [] => ""
  | c :: cs' => "/" ++ c ++ join_components cs'
  end.

(** The canonical absolute path with the components [cs], as
    [realpath] yields it. *)
Definition abs_path (cs : list string) : string :=
  match cs with
  | [] => "/"
  | _ => join_components cs
  end.

(** ** What follows the invocation, in closed form *)

Definition abnormal_message (r : Z) : string :=
  "Application quit abnormally (Exit code " ++ string_of_Z r ++ ")!" ++ nl.

(** The value of [ret] once the exception has been classified. *)
Definition computed_ret (v : PyException) : Z :=
  match v with
  | OtherException _ => -6
  | SystemExit None => -10
  | SystemExit (Some o) => converted o
  end.

Definition classification_notice (v : PyException) : list event :=
  match v with
  | SystemExit None => [Ev_printf ("Could not determine exit code" ++ nl)]
  | _ => []
  end.

(** The code [Py_Exit] ends the process with. *)
Definition exit_status (sts : Z) (e : PyErr) : Z :=
  if finalization_ok e then sts else 120.

(** What [PyErr_Print(); exit(r);] does once [e] has been restored. *)
Definition print_and_exit (e : PyErr) (r : Z) : list event * Termination :=
  match exc_value e with
  | OtherException name =>
      (display_events (display e) (Diag_traceback name), Exited r)
  | SystemExit (Some Py_None) =>
      ([Ev_Py_FinalizeEx], RuntimeExited (exit_status 0 e))
  | SystemExit (Some (PyLong n)) =>
      ([Ev_Py_FinalizeEx],
       RuntimeExited (exit_status (converted (PyLong n)) e))
  | SystemExit _ =>
      (display_events (display e) Diag_exit_payload ++ [Ev_Py_FinalizeEx],
       RuntimeExited (exit_status 1 e))
  end.

Definition post_call (c : CallResult) : list event * Termination :=
  match c with
  | Call_returned => ([Ev_Py_Finalize], Returned 0)
  | Call_raised e =>
      if exc_traceback e then
        let r := computed_ret (exc_value e) in
        if r =? 0 then
          (classification_notice (exc_value e) ++ [Ev_Py_Finalize], Returned r)
        else
          (classification_notice (exc_value e)
             ++ [Ev_printf (abnormal_message r); Ev_PyErr_Restore;
                 Ev_PyErr_Print]
             ++ fst (print_and_exit e r),
           snd (print_and_exit e r))
      else ([], Exited (-5))
  end.

(** The entry module both launchers resolve. *)
Definition resolved_module (ck : Cookiecutter) (w : World) : string :=
  match w_getenv_BRIEFCASE_MAIN_MODULE w with
  | Some v => v
  | None => module_name ck
  end.

(** The search path each launcher builds when every append succeeds. *)
Definition search_path (v : Variant) (ck : Cookiecutter) (w : World)
  : list string :=
  match v with
  | Self_contained =>
      [Flatpak.stdlib_zip_path ck; Flatpak.stdlib_path ck;
       Flatpak.dynload_path ck; Flatpak.app_packages_path; Flatpak.app_path]
  | System_installed PY_TAG =>
      [System.stdlib_path ck PY_TAG; System.dynload_path ck PY_TAG;
       (System.install_path w ++ System.app_suffix ck)%string;
       (System.install_path w ++ System.app_packages_suffix ck)%string]
  end.

(** The configuration the interpreter is initialised from when every
    step before the initialisation succeeds. *)
Definition expected_config (v : Variant) (ck : Cookiecutter) (w : World)
  : PyConfig :=
  {| isolated := 1; use_environment := 0; user_site_directory := 0;
     site_import := match v with Self_contained => 1 | _ => 0 end;
     buffered_stdio := 0; write_bytecode := 0;
     module_search_paths_set := 1;
     module_search_paths := search_path v ck w;
     home := match v with
             | Self_contained => Some Flatpak.python_home
             | _ => None
             end;
     run_module := Some (resolved_module ck w);
     argv := w_argv w |}.

(** How a failed configuration step ends the run, by its status alone. *)
Definition status_diagnostic (status : PyStatus) : list event :=
  match status with
  | PyStatus_Error err_msg => [Ev_stderr (Diag_fatal err_msg)]
  | _ => []
  end.

Definition status_finish (status : PyStatus) : Termination :=
  match status with
  | PyStatus_Exit exitcode => RuntimeExited exitcode
  | PyStatus_Error _ => RuntimeExited 1
  | PyStatus_Ok => Aborted
  end.



(** ** Observations on runs *)

Definition is_printf (s : string) (e : event) : bool :=
  match e with Ev_printf s' => String.eqb s s' | _ => false end.

(** The launcher wrote [s] to standard output. *)
Definition printed (s : string) (r : Run) : bool :=
  existsb (is_printf s) (events r).

(** What the run wrote to standard error. *)
Definition diagnostics (r : Run) : list event := filter is_stderr (events r).

(** The same world with another outcome of the invocation. *)
Definition with_outcome (w : World) (c : CallResult) : World :=
  {| w_argv := w_argv w;
     w_getenv_BRIEFCASE_MAIN_MODULE := w_getenv_BRIEFCASE_MAIN_MODULE w;
     w_realpath_exe := w_realpath_exe w;
     w_preinit := w_preinit w; w_set_home := w_set_home w;
     w_set_run_module := w_set_run_module w; w_read := w_read w;
     w_append_stdlib_zip := w_append_stdlib_zip w;
     w_append_stdlib := w_append_stdlib w;
     w_append_dynload := w_append_dynload w;
     w_append_app_packages := w_append_app_packages w;
     w_append_app := w_append_app w; w_set_argv := w_set_argv w;
     w_initialize := w_initialize w;
     w_import_runpy := w_import_runpy w;
     w_getattr_run_module := w_getattr_run_module w;
     w_unicode_app_module := w_unicode_app_module w;
     w_build_args := w_build_args w;
     w_call := c |}.

(** The exit code of an exit request by its payload: an integer in the
    range of [int] is its own code, [None] gives 0, and an object that
    converts to no integer gives 1. *)
Definition exit_request_code (o : PyObject) : option Z :=
  match o with
  | PyLong N =>
      if (INT_MIN <=? N) && (N <=? INT_MAX) then Some N else None
  | Py_None => Some 0
  | PyOther None => Some 1
  | PyOther (Some _) => None
  end.

(** The fatal failures before the invocation: a configuration step
    that fails with a status, the import of [runpy], the lookup of
    [_run_module_as_main], and the construction of the arguments. *)
Inductive Failure : Type :=
| Config_failed (status : PyStatus)
| Import_failed
| Lookup_failed
| Arguments_failed.

Definition first_failure (v : Variant) (w : World) : option Failure :=
  match find PyStatus_Exception (setup_answers v w) with
  | Some status => Some (Config_failed status)
  | None =>
      if negb (w_import_runpy w) then Some Import_failed
      else if negb (w_getattr_run_module w) then Some Lookup_failed
      else if negb (w_unicode_app_module w) then None
      else if negb (w_build_args w) then Some Arguments_failed
      else None
  end.

Definition failure_finish (f : Failure) : Termination :=
  match f with
  | Config_failed status => status_finish status
  | Import_failed => Exited (-2)
  | Lookup_failed => Exited (-3)
  | Arguments_failed => Exited (-4)
  end.

(** What follows the release of the configuration, when it is
    released at all. *)
Definition failure_release (f : Failure) : option (list event) :=
  match f with
  | Config_failed status => Some (status_diagnostic status)
  | _ => None
  end.

Definition failure_diagnostics (f : Failure) : list event :=
  match f with
  | Config_failed status => status_diagnostic status
  | _ => []
  end.

(** ** Further observations on runs *)



(** The pre-configuration the interpreter was pre-initialised from. *)
Fixpoint preinitialized_from (l : list event) : option PyPreConfig :=
  match l with
  | [] => None
  | Ev_Py_PreInitialize pc :: _ => Some pc
  | _ :: l' => preinitialized_from l'
  end.

(** [s] starts with [p]. *)
Fixpoint starts_with (p s : string) : bool :=
  match p with
  | EmptyString => true
  | String a p' =>
      match s with
      | EmptyString => false
      | String b s' => Ascii.eqb a b && starts_with p' s'
      end
  end.

(** The lines of the [PYTHONPATH:] listing, in the order they were
    written: the lines on standard output that start with ["- "]. *)
Fixpoint path_lines (l : list event) : list string :=
  match l with
  | [] => []
  | Ev_printf s :: l' =>
      if starts_with "- " s then s :: path_lines l' else path_lines l'
  | _ :: l' => path_lines l'
  end.

(** The launcher wrote its report of an abnormal end. *)
Definition is_abnormal_report (e : event) : bool :=
  match e with
  | Ev_printf s => starts_with "Application quit abnormally" s
  | _ => false
  end.

Definition reported_abnormal (r : Run) : bool :=
  existsb is_abnormal_report (events r).

(** The exception of the invocation came with a traceback. *)
Definition has_traceback (c : CallResult) : bool :=
  match c with
  | Call_raised e => exc_traceback e
  | Call_returned => false
  end.

(** The codes the launchers pass to [exit] themselves. *)
Definition launcher_exit_codes : list Z := [-2; -3; -4; -5; -6].

(** How a run may end: [main] returns 0, the launcher exits with one
    of its own codes, or the interpreter ends the process. *)
Definition regular_finish (t : Termination) : bool :=
  match t with
  | Returned c => c =? 0
  | Exited c => existsb (Z.eqb c) launcher_exit_codes
  | RuntimeExited _ => true
  | Aborted => false
  end.

(** The same world with another answer of [realpath]. *)
Definition with_realpath (w : World) (p : option string) : World :=
  {| w_argv := w_argv w;
     w_getenv_BRIEFCASE_MAIN_MODULE := w_getenv_BRIEFCASE_MAIN_MODULE w;
     w_realpath_exe := p;
     w_preinit := w_preinit w; w_set_home := w_set_home w;
     w_set_run_module := w_set_run_module w; w_read := w_read w;
     w_append_stdlib_zip := w_append_stdlib_zip w;
     w_append_stdlib := w_append_stdlib w;
     w_append_dynload := w_append_dynload w;
     w_append_app_packages := w_append_app_packages w;
     w_append_app := w_append_app w; w_set_argv := w_set_argv w;
     w_initialize := w_initialize w;
     w_import_runpy := w_import_runpy w;
     w_getattr_run_module := w_getattr_run_module w;
     w_unicode_app_module := w_unicode_app_module w;
     w_build_args := w_build_args w;
     w_call := w_call w |}.

(** No dot in a string. *)
Definition dot_free (s : string) : bool :=
  forallb (fun a => negb (Ascii.eqb a "."%char)) (list_ascii_of_string s).






(** An executable 408 directories deep, with a canonical location of
    4095 characters. *)
Definition deep_executable : string :=
  abs_path (repeat "directory" 408 ++ ["bin"; "helloworld"]).

Definition world_deep : World :=
  with_realpath (world_of None Call_returned) (Some deep_executable).

Definition is_free (e : event) : bool :=
  match e with Ev_PyMem_RawFree => true | _ => false end.

(** How often the launcher freed a decoded string. *)
Definition frees (r : Run) : nat := List.length (filter is_free (events r)).

(** * Properties *)

(** ** Proof automation *)

(** [fails_by tac x]: case analysis on an answer [x] in which every
    failing case is closed by [tac] and the successful one remains. *)
Ltac fails_by tac x := destruct x; [ | solve [tac] .. ].

(** Walks through the start-up steps of both launchers in program
    order. *)
Ltac setup_cases tac :=
  let s_pre := fresh "s_pre" in let s_home := fresh "s_home" in
  let s_mod := fresh "s_mod" in let s_read := fresh "s_read" in
  let s_zip := fresh "s_zip" in let s_std := fresh "s_std" in
  let s_dyn := fresh "s_dyn" in let s_pkg := fresh "s_pkg" in
  let s_app := fresh "s_app" in let s_argv := fresh "s_argv" in
  let s_init := fresh "s_init" in
  let b_imp := fresh "b_imp" in let b_attr := fresh "b_attr" in
  let b_uni := fresh "b_uni" in let b_args := fresh "b_args" in
  match goal with
  | w : World |- _ =>
      destruct w as [? ? ? s_pre s_home s_mod s_read s_zip s_std
                     s_dyn s_pkg s_app s_argv s_init b_imp b_attr b_uni
                     b_args ?]
  end;
  match goal with
  | v : Variant |- _ => destruct v
  end;
  fails_by tac s_pre;
  try fails_by tac s_home;
  fails_by tac s_mod; fails_by tac s_read;
  try fails_by tac s_zip;
  fails_by tac s_std; fails_by tac s_dyn;
  first [ fails_by tac s_pkg; fails_by tac s_app
        | fails_by tac s_app; fails_by tac s_pkg ];
  fails_by tac s_argv; fails_by tac s_init;
  fails_by tac b_imp; fails_by tac b_attr;
  fails_by tac b_uni; fails_by tac b_args.

Ltac outcome_cases :=
  match goal with
  | c : CallResult |- _ =>
      destruct c as [|[[[o|]|name] [|] how fin]]
  end.

Ltac evaluate :=
  cbv - [cast_int string_of_Z PyLong_AsLong_value PyLong_AsLong_result
         Z.eqb String.append nl separator dirname].

Ltac payload_cases :=
  repeat match goal with
  | |- context [match PyLong_AsLong_value ?o with _ => _ end] =>
      destruct (PyLong_AsLong_value o)
  | |- context [cast_int ?x =? 0] =>
      let E := fresh "E" in
      destruct (cast_int x =? 0) eqn:E;
      [ apply Z.eqb_eq in E | apply Z.eqb_neq in E ]
  | |- context [match ?o with Py_None => _ | _ => _ end] =>
      is_var o; destruct o as [|?|[?|]]
  | |- context [match ?h with Display_default => _ | _ => _ end] =>
      is_var h; destruct h as [|[?|]]
  | |- context [if ?b then _ else _] => is_var b; destruct b
  end.

Ltac run_all := outcome_cases; evaluate; payload_cases; evaluate.

(** ** The launchers and their closed forms *)

Lemma invoked_reaches_call v ck w :
  invoked (launch v ck w) = reaches_call v w.
Proof.
  setup_cases ltac:(reflexivity); run_all; reflexivity.
Qed.

Lemma launch_post_call v ck w :
  reaches_call v w = true ->
  after is_call (events (launch v ck w)) = Some (fst (post_call (w_call w)))
  /\ finish (launch v ck w) = snd (post_call (w_call w)).
Proof.
  setup_cases ltac:(discriminate); intros _; run_all; split; reflexivity.
Qed.

Lemma called_module_resolved v ck w :
  reaches_call v w = true ->
  called_module (events (launch v ck w)) = Some (resolved_module ck w).
Proof.
  setup_cases ltac:(discriminate); intros _; run_all; reflexivity.
Qed.

Lemma initialized_config v ck w c :
  initialized_from (events (launch v ck w)) = Some c ->
  c = expected_config v ck w.
Proof.
  setup_cases
    ltac:(evaluate; intros H;
          first [ discriminate H | inversion H; reflexivity ]);
    run_all; intros H; inversion H; reflexivity.
Qed.





Lemma null_traceback_exit v ck w x how fin :
  reaches_call v w = true ->
  w_call w = Call_raised {| exc_value := x; exc_traceback := false;
                            display := how; finalization_ok := fin |} ->
  after is_call (events (launch v ck w)) = Some []
  /\ finish (launch v ck w) = Exited (-5).
Proof.
  intros Hinv Hcall.
  destruct (launch_post_call v ck w Hinv) as [-> ->].
  rewrite Hcall. split; reflexivity.
Qed.

(** ** Two complete runs *)

(** The entry module named by the environment exits with code 3: the
    start-up trace and the separator line come first, and the process
    ends with 3. *)
Example scenario_override_exit_3 :
  launch Self_contained ck_helloworld
    (world_of (Some "tests.smoke") (raised (SystemExit (Some (PyLong 3)))))
  = {| events :=
         [Ev_printf ("Pre-initializing Python runtime..." ++ nl);
          Ev_Py_PreInitialize
            {| pre_isolated := 1; pre_use_environment := 0; utf8_mode := 1 |};
          Ev_printf ("PYTHONHOME: /app" ++ nl);
          Ev_PyMem_RawFree;
          Ev_printf ("PYTHONPATH:" ++ nl);
          Ev_printf ("- /app/lib/python311.zip" ++ nl);
          Ev_PyMem_RawFree;
          Ev_printf ("- /app/lib/python3.11" ++ nl);
          Ev_PyMem_RawFree;
          Ev_printf ("- /app/lib/python3.11/lib-dynload" ++ nl);
          Ev_PyMem_RawFree;
          Ev_printf ("- /app/briefcase/app_packages" ++ nl);
          Ev_PyMem_RawFree;
          Ev_printf ("- /app/briefcase/app" ++ nl);
          Ev_PyMem_RawFree;
          Ev_printf ("Configure argc/argv..." ++ nl);
          Ev_printf ("Initializing Python runtime..." ++ nl);
          Ev_Py_InitializeFromConfig
            {| isolated := 1; use_environment := 0;
               user_site_directory := 0; site_import := 1;
               buffered_stdio := 0; write_bytecode := 0;
               module_search_paths_set := 1;
               module_search_paths :=
                 ["/app/lib/python311.zip"; "/app/lib/python3.11";
                  "/app/lib/python3.11/lib-dynload";
                  "/app/briefcase/app_packages"; "/app/briefcase/app"];
               home := Some "/app"; run_module := Some "tests.smoke";
               argv := ["helloworld"] |};
          Ev_printf ("Running app module: tests.smoke" ++ nl);
          Ev_printf (separator ++ nl);
          Ev_fflush_stdout; Ev_fflush_stderr;
          Ev_PyObject_Call "tests.smoke";
          Ev_printf ("Application quit abnormally (Exit code 3)!" ++ nl);
          Ev_PyErr_Restore; Ev_PyErr_Print; Ev_Py_FinalizeEx];
       finish := RuntimeExited 3 |}.
Proof. reflexivity. Qed.

(** The default entry module raises an unhandled error: the traceback
    goes to standard error and the process ends with -6. *)
Example scenario_default_unhandled_error :
  after is_call (events (launch (System_installed "3.11") ck_helloworld
    (world_of None (raised (OtherException "RuntimeError")))))
  = Some [Ev_printf ("Application quit abnormally (Exit code -6)!" ++ nl);
          Ev_PyErr_Restore; Ev_PyErr_Print;
          Ev_stderr (Diag_traceback "RuntimeError")]
  /\ called_module (events (launch (System_installed "3.11") ck_helloworld
       (world_of None (raised (OtherException "RuntimeError")))))
     = Some "helloworld"
  /\ finish (launch (System_installed "3.11") ck_helloworld
       (world_of None (raised (OtherException "RuntimeError"))))
     = Exited (-6).
Proof. repeat split. Qed.

(** ** [dirname] on canonical paths *)

Lemma list_ascii_of_string_app a b :
  list_ascii_of_string (a ++ b)
  = list_ascii_of_string a ++ list_ascii_of_string b.
Proof.
  induction a as [|x a IH]; simpl; [reflexivity | now rewrite IH].
Qed.

Lemma join_components_snoc cs c :
  list_ascii_of_string (join_components (cs ++ [c]))
  = list_ascii_of_string (join_components cs)
    ++ slash :: list_ascii_of_string c.
Proof.
  induction cs as [|d cs IH]; simpl.
  - now rewrite list_ascii_of_string_app, app_nil_r.
  - rewrite !list_ascii_of_string_app, IH, app_assoc. reflexivity.
Qed.

Lemma drop_component_app X R :
  forallb nonslash X = true ->
  drop_component (X ++ slash :: R) = slash :: R.
Proof.
  induction X as [|a X IH]; simpl.
  - reflexivity.
  - intros H. apply andb_true_iff in H. destruct H as [Ha HX].
    unfold nonslash in Ha. apply negb_true_iff in Ha. rewrite Ha. auto.
Qed.

Lemma valid_component_rev c :
  valid_component c = true ->
  exists a X, rev (list_ascii_of_string c) = a :: X
              /\ forallb nonslash (a :: X) = true.
Proof.
  unfold valid_component. intros H.
  apply andb_true_iff in H. destruct H as [Hne Hall].
  assert (Hrev : forallb nonslash (rev (list_ascii_of_string c)) = true).
  { apply forallb_forall. intros a Ha. apply in_rev in Ha.
    rewrite forallb_forall in Hall. apply (Hall a Ha). }
  destruct c as [|x c]; [discriminate|].
  simpl in Hrev |- *.
  destruct (rev (list_ascii_of_string c) ++ [x]) as [|a X] eqn:E.
  - destruct (rev (list_ascii_of_string c)); discriminate.
  - exists a, X. split; [reflexivity | exact Hrev].
Qed.

Lemma rev_join_components cs :
  cs <> [] -> forallb valid_component cs = true ->
  exists a X, rev (list_ascii_of_string (join_components cs)) = a :: X
              /\ nonslash a = true.
Proof.
  intros Hne Hall.
  destruct (exists_last Hne) as (cs' & c & ->).
  rewrite forallb_app in Hall. apply andb_true_iff in Hall.
  destruct Hall as [_ Hc]. simpl in Hc. rewrite andb_true_r in Hc.
  destruct (valid_component_rev c Hc) as (a & X & E & Ha).
  rewrite join_components_snoc, rev_app_distr. simpl.
  rewrite E. simpl in Ha. apply andb_true_iff in Ha.
  exists a. eexists. split; [reflexivity | apply Ha].
Qed.

Lemma dirname_abs_path_snoc cs c :
  forallb valid_component cs = true -> valid_component c = true ->
  dirname (Some (abs_path (cs ++ [c]))) = abs_path cs.
Proof.
  intros Hcs Hc.
  assert (Ep : abs_path (cs ++ [c]) = join_components (cs ++ [c])).
  { destruct cs; reflexivity. }
  rewrite Ep. unfold dirname.
  rewrite join_components_snoc, rev_app_distr. simpl rev at 1.
  destruct (valid_component_rev c Hc) as (a & X & E & Ha).
  rewrite E. simpl app.
  simpl in Ha. apply andb_true_iff in Ha. destruct Ha as [Ha HX].
  assert (Hd : forall l, drop_slashes (a :: l) = a :: l).
  { intros l. simpl. unfold nonslash in Ha. apply negb_true_iff in Ha.
    now rewrite Ha. }
  rewrite Hd, <- app_assoc. simpl app.
  change (a :: X ++ slash :: ?R) with ((a :: X) ++ slash :: R).
  rewrite drop_component_app by (simpl; now rewrite Ha, HX).
  simpl drop_slashes.
  destruct cs as [|d cs'].
  - reflexivity.
  - destruct (rev_join_components (d :: cs')) as (b & Y & E' & Hb);
      [discriminate | assumption |].
    rewrite E'. simpl drop_slashes.
    unfold nonslash in Hb. apply negb_true_iff in Hb. rewrite Hb.
    rewrite <- E', rev_involutive, string_of_list_ascii_of_string.
    reflexivity.
Qed.

Lemma dirname_abs_path cs :
  forallb valid_component cs = true ->
  dirname (Some (abs_path cs)) = abs_path (removelast cs).
Proof.
  intros Hcs. destruct cs as [|d cs'].
  - reflexivity.
  - destruct (@exists_last _ (d :: cs')) as (cs0 & c & E); [discriminate|].
    rewrite E in Hcs |- *. rewrite removelast_last.
    rewrite forallb_app in Hcs. apply andb_true_iff in Hcs.
    destruct Hcs as [H0 Hc]. simpl in Hc. rewrite andb_true_r in Hc.
    now apply dirname_abs_path_snoc.
Qed.

Lemma valid_removelast cs :
  forallb valid_component cs = true ->
  forallb valid_component (removelast cs) = true.
Proof.
  intros H. apply forallb_forall. intros c Hin.
  rewrite forallb_forall in H. apply H.
  destruct cs as [|d cs']; [contradiction|].
  destruct (@exists_last _ (d :: cs')) as (cs0 & c0 & E); [discriminate|].
  rewrite E in Hin |- *. rewrite removelast_last in Hin.
  apply in_or_app. now left.
Qed.

Lemma install_path_canonical w cs :
  forallb valid_component cs = true ->
  w_realpath_exe w = Some (abs_path cs) ->
  System.install_path w = abs_path (removelast (removelast cs)).
Proof.
  intros Hcs Hexe. unfold System.install_path. rewrite Hexe.
  rewrite (dirname_abs_path cs Hcs).
  apply dirname_abs_path. now apply valid_removelast.
Qed.

Lemma install_path_unresolved w :
  w_realpath_exe w = None -> System.install_path w = ".".
Proof.
  intros H. unfold System.install_path. now rewrite H.
Qed.

Lemma converted_int N : in_int_range N -> converted (PyLong N) = N.
Proof.
  unfold in_int_range, INT_MIN, INT_MAX, converted, PyLong_AsLong_result,
    PyLong_AsLong_value, LONG_MIN, LONG_MAX, cast_int.
  intros H.
  replace ((-2 ^ 63 <=? N) && (N <=? 2 ^ 63 - 1)) with true
    by (symmetry; apply andb_true_iff; split; apply Z.leb_le; lia).
  rewrite Z.mod_small by lia. lia.
Qed.

Lemma exit_request_code_int N c :
  exit_request_code (PyLong N) = Some c -> in_int_range N /\ c = N.
Proof.
  unfold exit_request_code, in_int_range.
  destruct ((INT_MIN <=? N) && (N <=? INT_MAX)) eqn:E; [|discriminate].
  apply andb_true_iff in E. destruct E as [E1 E2].
  apply Z.leb_le in E1. apply Z.leb_le in E2.
  intros H. inversion H. subst. auto.
Qed.

Lemma reaches_call_initialized v ck w :
  reaches_call v w = true ->
  initialized_from (events (launch v ck w)) = Some (expected_config v ck w).
Proof.
  setup_cases ltac:(discriminate); intros _; run_all; reflexivity.
Qed.

(** ** Exit requests *)

(** Claim C1, as amended.  When the entry module raises [SystemExit], the
    process exit code is the payload itself for an integer in the range
    of a C [int], 0 for the payload [None], and 1 for a payload that
    converts to no integer; except that where the exit request is left
    to [PyErr_Print] (the payload does not convert to 0) and the
    finalization of the interpreter fails, the exit code is 120. *)
Theorem exit_request_exit_code v ck w how fin o c :
  invoked (launch v ck w) = true ->
  w_call w = raised_with how fin (SystemExit (Some o)) ->
  exit_request_code o = Some c ->
  exit_code (finish (launch v ck w))
  = Some (if (converted o =? 0) || fin then c else 120).
Proof.
  intros Hinv Hcall Hcode.
  rewrite invoked_reaches_call in Hinv.
  destruct (launch_post_call v ck w Hinv) as [_ ->].
  rewrite Hcall. unfold raised_with, post_call. simpl exc_traceback.
  simpl exc_value. cbv iota. unfold computed_ret, print_and_exit.
  simpl exc_value.
  destruct o as [|N|[i|]].
  - inversion Hcode; subst c. destruct fin; reflexivity.
  - apply exit_request_code_int in Hcode. destruct Hcode as [Hr ->].
    rewrite !(converted_int N Hr).
    destruct (N =? 0); destruct fin; reflexivity.
  - discriminate.
  - inversion Hcode; subst c. destruct fin; reflexivity.
Qed.

(** Claim C1 fails as stated.  An exit request without payload ends the
    process with 0 and one with a non-integer payload with 1, so there is
    no single default; the launcher's own value, shown in its message,
    is -1 in both runs and -10 when the payload cannot be read.  An
    integer payload beyond the range of [int] is cut down to 32 bits. *)
Lemma exit_request_no_single_default :
  exit_code (finish (launch Self_contained ck_helloworld
    (world_of None (raised (SystemExit (Some Py_None))))))
  <> exit_code (finish (launch Self_contained ck_helloworld
    (world_of None (raised (SystemExit (Some (PyOther None)))))))
  /\ exit_code (finish (launch Self_contained ck_helloworld
    (world_of None (raised (SystemExit (Some Py_None)))))) = Some 0
  /\ exit_code (finish (launch Self_contained ck_helloworld
    (world_of None (raised (SystemExit (Some (PyOther None))))))) = Some 1
  /\ printed (abnormal_message (-1)) (launch Self_contained ck_helloworld
    (world_of None (raised (SystemExit (Some Py_None))))) = true
  /\ printed (abnormal_message (-10)) (launch Self_contained ck_helloworld
    (world_of None (raised (SystemExit None)))) = true
  /\ exit_code (finish (launch Self_contained ck_helloworld
    (world_of None (raised (SystemExit (Some (PyLong (2 ^ 32 + 3))))))))
     = Some 3.
Proof.
  vm_compute. intuition (reflexivity || discriminate).
Qed.

Lemma exit_request_exit_code_witness :
  exit_code (finish (launch (System_installed "3.11") ck_helloworld
    (world_of (Some "tests.smoke") (raised (SystemExit (Some (PyLong 3)))))))
  = Some 3
  /\ exit_code (finish (launch Self_contained ck_helloworld
    (world_of None (raised (SystemExit (Some Py_None)))))) = Some 0
  /\ exit_code (finish (launch Self_contained ck_helloworld
    (world_of None (raised (SystemExit (Some (PyOther None))))))) = Some 1
  /\ exit_code (finish (launch Self_contained ck_helloworld
    (world_of None
       (raised_with Display_default false
          (SystemExit (Some (PyLong 3))))))) = Some 120.
Proof.
  split; [|split; [|split]].
  - apply (exit_request_exit_code (System_installed "3.11") ck_helloworld
             (world_of (Some "tests.smoke")
                (raised (SystemExit (Some (PyLong 3)))))
             Display_default true (PyLong 3) 3); reflexivity.
  - apply (exit_request_exit_code Self_contained ck_helloworld
             (world_of None (raised (SystemExit (Some Py_None))))
             Display_default true Py_None 0); reflexivity.
  - apply (exit_request_exit_code Self_contained ck_helloworld
             (world_of None (raised (SystemExit (Some (PyOther None)))))
             Display_default true (PyOther None) 1); reflexivity.
  - apply (exit_request_exit_code Self_contained ck_helloworld
             (world_of None
                (raised_with Display_default false
                   (SystemExit (Some (PyLong 3)))))
             Display_default false (PyLong 3) 3); reflexivity.
Defined.

(** ** Uncaught errors *)




(** ** Entry-module selection *)

(** Claim C3, as amended.  If [BRIEFCASE_MAIN_MODULE] is set, to whatever
    value, the entry module is that value; if it is unset, the entry
    module is the build-time default.  The resolved module is the one
    stored in the configuration and the one that is run. *)
Theorem entry_module_selection v ck w :
  invoked (launch v ck w) = true ->
  called_module (events (launch v ck w))
  = Some (match w_getenv_BRIEFCASE_MAIN_MODULE w with
          | Some M => M
          | None => module_name ck
          end)
  /\ option_map run_module (initialized_from (events (launch v ck w)))
     = Some (called_module (events (launch v ck w))).
Proof.
  intros Hinv. rewrite invoked_reaches_call in Hinv.
  rewrite (called_module_resolved v ck w Hinv).
  rewrite (reaches_call_initialized v ck w Hinv).
  split; reflexivity.
Qed.

Lemma entry_module_selection_witness :
  called_module (events (launch Self_contained ck_helloworld
    (world_of (Some "tests.smoke") Call_returned))) = Some "tests.smoke"
  /\ called_module (events (launch (System_installed "3.11") ck_helloworld
    (world_of None Call_returned))) = Some "helloworld".
Proof.
  split.
  - apply (entry_module_selection Self_contained ck_helloworld
             (world_of (Some "tests.smoke") Call_returned)). reflexivity.
  - apply (entry_module_selection (System_installed "3.11") ck_helloworld
             (world_of None Call_returned)). reflexivity.
Defined.

(** Claim C3 fails as stated: with the variable set to the empty string the
    entry module is the empty string, not the build-time default. *)
Lemma entry_module_empty_override :
  called_module (events (launch Self_contained ck_helloworld
    (world_of (Some "") Call_returned))) = Some ""
  /\ called_module (events (launch (System_installed "3.11") ck_helloworld
    (world_of (Some "") Call_returned))) = Some ""
  /\ module_name ck_helloworld <> "".
Proof.
  split; [reflexivity | split; [reflexivity | discriminate]].
Qed.

(** ** Normal completion *)

(** Claim C5.  When the invocation of the entry module returns normally, the
    launcher finalizes the interpreter and [main] returns 0. *)
Theorem normal_return_exit_code v ck w :
  invoked (launch v ck w) = true ->
  w_call w = Call_returned ->
  after is_call (events (launch v ck w)) = Some [Ev_Py_Finalize]
  /\ finish (launch v ck w) = Returned 0
  /\ exit_code (finish (launch v ck w)) = Some 0.
Proof.
  intros Hinv Hcall.
  rewrite invoked_reaches_call in Hinv.
  destruct (launch_post_call v ck w Hinv) as [-> ->].
  rewrite Hcall. repeat split.
Qed.

Lemma normal_return_exit_code_witness :
  finish (launch Self_contained ck_helloworld (world_of None Call_returned))
  = Returned 0
  /\ finish (launch (System_installed "3.11") ck_helloworld
       (world_of None Call_returned)) = Returned 0.
Proof.
  split.
  - apply (normal_return_exit_code Self_contained ck_helloworld
             (world_of None Call_returned)); reflexivity.
  - apply (normal_return_exit_code (System_installed "3.11") ck_helloworld
             (world_of None Call_returned)); reflexivity.
Defined.

(** Claim C10.  An exit request whose payload converts to the integer 0 takes
    the path of a normal return: the whole run is the run in which the
    invocation returns normally, with no message about an abnormal end,
    with the interpreter finalized, and with [main] returning 0. *)
Theorem exit_request_zero_is_normal v ck w how fin o :
  invoked (launch v ck w) = true ->
  w_call w = raised_with how fin (SystemExit (Some o)) ->
  converted o = 0 ->
  launch v ck w = launch v ck (with_outcome w Call_returned)
  /\ after is_call (events (launch v ck w)) = Some [Ev_Py_Finalize]
  /\ finish (launch v ck w) = Returned 0.
Proof.
  intros Hinv Hcall Hzero.
  rewrite invoked_reaches_call in Hinv.
  split.
  - revert Hinv Hcall.
    setup_cases ltac:(discriminate); intros _ Hcall; simpl in Hcall;
      subst; unfold converted in Hzero; evaluate;
      destruct (PyLong_AsLong_value o); evaluate; rewrite Hzero;
      reflexivity.
  - destruct (launch_post_call v ck w Hinv) as [-> ->].
    rewrite Hcall. unfold raised_with, post_call. simpl exc_traceback.
    simpl exc_value. cbv iota. unfold computed_ret. rewrite Hzero.
    split; reflexivity.
Qed.

Lemma exit_request_zero_is_normal_witness :
  launch Self_contained ck_helloworld
    (world_of None (raised (SystemExit (Some (PyLong 0)))))
  = launch Self_contained ck_helloworld (world_of None Call_returned)
  /\ finish (launch (System_installed "3.11") ck_helloworld
       (world_of None (raised (SystemExit (Some (PyLong 0))))))
     = Returned 0.
Proof.
  split.
  - apply (exit_request_zero_is_normal Self_contained ck_helloworld
             (world_of None (raised (SystemExit (Some (PyLong 0)))))
             Display_default true (PyLong 0)); reflexivity.
  - apply (exit_request_zero_is_normal (System_installed "3.11")
             ck_helloworld
             (world_of None (raised (SystemExit (Some (PyLong 0)))))
             Display_default true (PyLong 0)); reflexivity.
Defined.

(** ** The two launchers agree *)

(** Claim C9.  Both launchers classify the outcome of the invocation in the
    same way: whatever the variants, the template values and the rest of
    the worlds, two runs that invoke the entry module with the same
    outcome do the same after the invocation and end the same way. *)
Theorem variants_classify_alike v1 v2 ck1 ck2 w1 w2 :
  invoked (launch v1 ck1 w1) = true ->
  invoked (launch v2 ck2 w2) = true ->
  w_call w1 = w_call w2 ->
  after is_call (events (launch v1 ck1 w1))
  = after is_call (events (launch v2 ck2 w2))
  /\ finish (launch v1 ck1 w1) = finish (launch v2 ck2 w2).
Proof.
  intros H1 H2 Hcall.
  rewrite invoked_reaches_call in H1, H2.
  destruct (launch_post_call v1 ck1 w1 H1) as [-> ->].
  destruct (launch_post_call v2 ck2 w2 H2) as [-> ->].
  rewrite Hcall. split; reflexivity.
Qed.

Lemma variants_classify_alike_witness :
  after is_call (events (launch Self_contained ck_helloworld
    (world_of None (raised (SystemExit (Some (PyLong 3)))))))
  = after is_call (events (launch (System_installed "3.11") ck_helloworld
      (world_of (Some "tests.smoke")
         (raised (SystemExit (Some (PyLong 3)))))))
  /\ finish (launch Self_contained ck_helloworld
       (world_of None (raised (SystemExit (Some (PyLong 3))))))
     = finish (launch (System_installed "3.11") ck_helloworld
         (world_of (Some "tests.smoke")
            (raised (SystemExit (Some (PyLong 3)))))).
Proof.
  apply (variants_classify_alike Self_contained (System_installed "3.11")
           ck_helloworld ck_helloworld
           (world_of None (raised (SystemExit (Some (PyLong 3)))))
           (world_of (Some "tests.smoke")
              (raised (SystemExit (Some (PyLong 3))))));
    reflexivity.
Defined.

(** ** Teardown *)



(** ** Fatal failures before the invocation *)

(** Claim C8, as amended.  A configuration step that fails makes the launcher
    release the configuration and end through [Py_ExitStatusException],
    which prints the message of an error status and ends the process
    with a code that depends on the status alone, whichever step
    failed.  A failed import of [runpy], a failed lookup of
    [_run_module_as_main] and a failed construction of the arguments end
    the process at once with -2, -3 and -4, without a diagnostic and
    without releasing the configuration. *)
Theorem fatal_failures v ck w f :
  first_failure v w = Some f ->
  finish (launch v ck w) = failure_finish f
  /\ after is_clear (events (launch v ck w)) = failure_release f
  /\ diagnostics (launch v ck w) = failure_diagnostics f.
Proof.
  setup_cases
    ltac:(intros H; cbv in H;
          first [ discriminate H
                | inversion H; subst; evaluate; repeat split ]).
  all: intros H; cbv in H; discriminate H.
Qed.

Lemma fatal_failures_witness :
  finish (launch Self_contained ck_helloworld
    (world_failing_step 1 (PyStatus_Error "cannot set home")))
  = RuntimeExited 1
  /\ finish (launch (System_installed "3.11") ck_helloworld
       (world_failing_setup 0)) = Exited (-2).
Proof.
  split.
  - apply (fatal_failures Self_contained ck_helloworld
             (world_failing_step 1 (PyStatus_Error "cannot set home"))
             (Config_failed (PyStatus_Error "cannot set home"))).
    reflexivity.
  - apply (fatal_failures (System_installed "3.11") ck_helloworld
             (world_failing_setup 0) Import_failed).
    reflexivity.
Defined.

(** Claim C8 fails as stated.  Two different configuration steps that fail
    with the same status end with the same code; a failed lookup of
    [_run_module_as_main] and a failed conversion of the module name
    both end with -3; and a failed import of [runpy] ends the run with
    nothing on standard error and the configuration not released. *)
Lemma fatal_failures_not_step_specific :
  finish (launch Self_contained ck_helloworld
    (world_failing_step 1 (PyStatus_Error "out of memory")))
  = finish (launch Self_contained ck_helloworld
      (world_failing_step 9 (PyStatus_Error "out of memory")))
  /\ finish (launch Self_contained ck_helloworld (world_failing_setup 1))
     = Exited (-3)
  /\ finish (launch Self_contained ck_helloworld (world_failing_setup 2))
     = Exited (-3)
  /\ finish (launch Self_contained ck_helloworld (world_failing_setup 0))
     = Exited (-2)
  /\ diagnostics (launch Self_contained ck_helloworld
       (world_failing_setup 0)) = []
  /\ existsb is_clear (events (launch Self_contained ck_helloworld
       (world_failing_setup 0))) = false.
Proof.
  repeat split.
Qed.

(** ** The module search path *)

(** Both launchers initialise the interpreter from an isolated
    configuration with the search path marked as set, and the
    system-package launcher with the import of [site] switched off. *)
Lemma isolation_at_initialization v ck w c :
  initialized_from (events (launch v ck w)) = Some c ->
  isolated c = 1 /\ use_environment c = 0 /\ user_site_directory c = 0
  /\ module_search_paths_set c = 1 /\ write_bytecode c = 0
  /\ buffered_stdio c = 0
  /\ (v <> Self_contained -> site_import c = 0).
Proof.
  intros H. apply initialized_config in H. subst c.
  repeat split. destruct v; [congruence | reflexivity].
Qed.

(** The Flatpak launcher puts the packages before the application. *)
Lemma flatpak_search_path ck w c :
  initialized_from (events (launch Self_contained ck w)) = Some c ->
  module_search_paths c
  = [Flatpak.stdlib_zip_path ck; Flatpak.stdlib_path ck;
     Flatpak.dynload_path ck; Flatpak.app_packages_path; Flatpak.app_path].
Proof.
  intros H. apply initialized_config in H. now subst c.
Qed.

Lemma system_search_path_entries ck PY_TAG w c :
  initialized_from (events (launch (System_installed PY_TAG) ck w)) = Some c ->
  module_search_paths c = search_path (System_installed PY_TAG) ck w.
Proof.
  intros H. apply initialized_config in H. now subst c.
Qed.

(** Claim C4 fails on the system-package launcher.  The search path it
    initialises the interpreter from has the application directory
    before the directory of the third-party packages. *)
Theorem system_search_path ck PY_TAG w c :
  initialized_from (events (launch (System_installed PY_TAG) ck w)) = Some c ->
  module_search_paths c
  = [System.stdlib_path ck PY_TAG; System.dynload_path ck PY_TAG;
     (System.install_path w ++ System.app_suffix ck)%string;
     (System.install_path w ++ System.app_packages_suffix ck)%string].
Proof.
  intros H. apply initialized_config in H. now subst c.
Qed.

Lemma system_search_path_witness :
  module_search_paths
    (expected_config (System_installed "3.11") ck_helloworld
       (world_of None Call_returned))
  = ["/usr/lib/python3.11"; "/usr/lib/python3.11/lib-dynload";
     "/usr/lib/helloworld/app"; "/usr/lib/helloworld/app_packages"].
Proof.
  apply (system_search_path ck_helloworld "3.11"
           (world_of None Call_returned)
           (expected_config (System_installed "3.11") ck_helloworld
              (world_of None Call_returned))).
  reflexivity.
Defined.

(** ** The installation root *)

Lemma path_buffer_without_overflow ck PY_TAG w :
  System.overflows ck PY_TAG w = false ->
  System.path_buffer ck PY_TAG w
  = map Some (search_path (System_installed PY_TAG) ck w).
Proof.
  unfold System.overflows, System.path_buffer, System.strcat,
    System.strcpy, search_path. intros H.
  repeat match goal with
  | |- context [if ?b then _ else _] => destruct b
  end;
  simpl in H; first [ discriminate H | reflexivity ].
Qed.

Lemma abs_path_not_dot cs : abs_path cs <> ".".
Proof.
  destruct cs as [|c cs]; discriminate.
Qed.

(** Claim C6 fails on the code.  The entries for the application and
    for the packages are built by [strcpy] and [strcat] in a buffer of
    [PATH_MAX] bytes without a check of the length: for an executable
    whose canonical location, 4095 characters long, [realpath] can
    still return, the installation root has 4080 characters and both
    entries are written past the end of the buffer.  And where
    [realpath] fails, its null result is not checked either and the
    root is ["."], the canonical location of nothing. *)
Theorem install_root_overflow :
  (Z.of_nat (String.length deep_executable) <? System.PATH_MAX) = true
  /\ Z.of_nat (String.length (System.install_path world_deep)) = 4080
  /\ System.path_buffer ck_helloworld "3.11" world_deep
     = [Some "/usr/lib/python3.11"; Some "/usr/lib/python3.11/lib-dynload";
        None; None]
  /\ System.overflows ck_helloworld "3.11" world_deep = true
  /\ System.install_path
       (with_realpath (world_of None Call_returned) None) = "."
  /\ (forall cs, abs_path cs <> ".").
Proof.
  split; [vm_compute; reflexivity|].
  split; [vm_compute; reflexivity|].
  split; [vm_compute; reflexivity|].
  split; [vm_compute; reflexivity|].
  split; [reflexivity | exact abs_path_not_dot].
Qed.

(** Where [realpath] resolves the executable and no copy overflows the
    buffer, the installation root of the system-package launcher is the
    canonical location of the executable without its last two
    components, and the entries of the search path for the application
    and for the third-party packages are that root followed by fixed
    suffixes, as the buffer holds them. *)
Theorem install_root_from_executable ck PY_TAG w cs c :
  forallb valid_component cs = true ->
  w_realpath_exe w = Some (abs_path cs) ->
  System.overflows ck PY_TAG w = false ->
  initialized_from (events (launch (System_installed PY_TAG) ck w)) = Some c ->
  System.install_path w = dirname (Some (dirname (w_realpath_exe w)))
  /\ System.install_path w = abs_path (removelast (removelast cs))
  /\ nth_error (module_search_paths c) 2
     = Some (abs_path (removelast (removelast cs))
             ++ System.app_suffix ck)%string
  /\ nth_error (module_search_paths c) 3
     = Some (abs_path (removelast (removelast cs))
             ++ System.app_packages_suffix ck)%string
  /\ map Some (module_search_paths c) = System.path_buffer ck PY_TAG w.
Proof.
  intros Hcs Hexe Hfit Hinit.
  rewrite (path_buffer_without_overflow ck PY_TAG w Hfit).
  rewrite (system_search_path_entries ck PY_TAG w c Hinit).
  rewrite <- (install_path_canonical w cs Hcs Hexe).
  repeat split.
Qed.

Lemma install_root_from_executable_witness :
  System.install_path (world_of None Call_returned) = "/usr"
  /\ nth_error (module_search_paths
       (expected_config (System_installed "3.11") ck_helloworld
          (world_of None Call_returned))) 2
     = Some "/usr/lib/helloworld/app".
Proof.
  destruct (install_root_from_executable ck_helloworld "3.11"
              (world_of None Call_returned) ["usr"; "bin"; "helloworld"]
              (expected_config (System_installed "3.11") ck_helloworld
                 (world_of None Call_returned))
              eq_refl eq_refl eq_refl eq_refl) as (_ & Hroot & Happ & _).
  split; [exact Hroot | exact Happ].
Defined.

(** * Further properties of the launchers *)

(** ** Start-up *)

(** Every run pre-initialises the interpreter, whatever happens later,
    and does so from an isolated pre-configuration in UTF-8 mode. *)
Theorem every_run_preinitializes v ck w :
  preinitialized_from (events (launch v ck w))
  = Some {| pre_isolated := 1; pre_use_environment := 0; utf8_mode := 1 |}.
Proof.
  setup_cases ltac:(reflexivity); run_all; reflexivity.
Qed.

(** The entry module is invoked exactly when every configuration step
    and every step of the set-up of the call succeeds; after a failed
    step it is never run. *)
Theorem invocation_requires_every_step v ck w :
  invoked (launch v ck w) = true <->
  forallb ok (setup_answers v w) = true
  /\ w_import_runpy w = true /\ w_getattr_run_module w = true
  /\ w_unicode_app_module w = true /\ w_build_args w = true.
Proof.
  rewrite invoked_reaches_call. unfold reaches_call.
  rewrite !andb_true_iff. tauto.
Qed.



(** ** Resources *)

(** The configuration is released exactly in the runs in which a
    configuration step fails, and then once; a run that initialises the
    interpreter never releases it, however it ends. *)
Theorem configuration_release v ck w :
  filter is_clear (events (launch v ck w))
  = if forallb ok (setup_answers v w) then [] else [Ev_PyConfig_Clear].
Proof.
  setup_cases ltac:(reflexivity); run_all; reflexivity.
Qed.

(** In a run that initialises the interpreter, every string the
    launcher decoded for the configuration has been freed: one per entry
    of the search path, and one more for the home where it is set. *)
Theorem decoded_strings_freed v ck w c :
  initialized_from (events (launch v ck w)) = Some c ->
  frees (launch v ck w)
  = (List.length (module_search_paths c)
     + match home c with Some _ => 1 | None => 0 end)%nat.
Proof.
  intros H. pose proof (initialized_config v ck w c H) as Hc. subst c.
  revert H.
  setup_cases
    ltac:(evaluate; intros H; first [ discriminate H | reflexivity ]);
    intros _; run_all; reflexivity.
Qed.

Lemma decoded_strings_freed_witness :
  frees (launch Self_contained ck_helloworld (world_of None Call_returned))
  = 6%nat
  /\ frees (launch (System_installed "3.11") ck_helloworld
        (world_of None Call_returned)) = 4%nat.
Proof.
  split.
  - apply (decoded_strings_freed Self_contained ck_helloworld
             (world_of None Call_returned)
             (expected_config Self_contained ck_helloworld
                (world_of None Call_returned))). reflexivity.
  - apply (decoded_strings_freed (System_installed "3.11") ck_helloworld
             (world_of None Call_returned)
             (expected_config (System_installed "3.11") ck_helloworld
                (world_of None Call_returned))). reflexivity.
Defined.

(** ** How runs end *)

(** No run ends in a fatal error of the interpreter's API; [main] only
    ever returns 0; and the launcher itself calls [exit] only with -2,
    -3, -4, -5 or -6. *)
Theorem runs_end_regularly v ck w :
  regular_finish (finish (launch v ck w)) = true.
Proof.
  setup_cases ltac:(reflexivity); run_all;
    first [ reflexivity | congruence ].
Qed.

(** Evaluation that also computes on the text of the messages. *)
Ltac evaluate_text :=
  cbv - [cast_int string_of_Z PyLong_AsLong_value PyLong_AsLong_result
         Z.eqb dirname].


(** The launcher reports an abnormal end exactly in the runs that invoke
    the entry module, get an exception with a traceback from it and do
    not finalize the interpreter. *)
Theorem abnormal_report_runs v ck w :
  reported_abnormal (launch v ck w)
  = invoked (launch v ck w) && has_traceback (w_call w)
    && negb (finalized (launch v ck w)).
Proof.
  setup_cases ltac:(evaluate_text; reflexivity);
    outcome_cases; evaluate_text; payload_cases; evaluate_text;
    reflexivity.
Qed.



Lemma cast_int_range v : in_int_range (cast_int v).
Proof.
  unfold in_int_range, cast_int, INT_MIN, INT_MAX.
  pose proof (Z.mod_pos_bound (v + 2 ^ 31) (2 ^ 32) ltac:(lia)). lia.
Qed.

Lemma cast_int_congruent v : (cast_int v - v) mod 2 ^ 32 = 0.
Proof.
  unfold cast_int.
  rewrite (Z.mod_eq (v + 2 ^ 31) (2 ^ 32)) by lia.
  replace (v + 2 ^ 31 - 2 ^ 32 * ((v + 2 ^ 31) / 2 ^ 32) - 2 ^ 31 - v)
    with (- ((v + 2 ^ 31) / 2 ^ 32) * 2 ^ 32) by lia.
  apply Z.mod_mul. lia.
Qed.

(** An exit request with an integer payload of any size: the exit code
    is the payload cut down to a C [int], or 120 where the request is
    left to [PyErr_Print] and the finalization of the interpreter
    fails.  The payload cut down lies in the range of [int]; it is
    congruent to the payload modulo [2^32] when the payload fits a
    [long], and it is -1 when the payload does not. *)
Theorem integer_payload_exit_code v ck w how fin N :
  invoked (launch v ck w) = true ->
  w_call w = raised_with how fin (SystemExit (Some (PyLong N))) ->
  exit_code (finish (launch v ck w))
  = Some (if (converted (PyLong N) =? 0) || fin
          then converted (PyLong N) else 120)
  /\ in_int_range (converted (PyLong N))
  /\ (LONG_MIN <= N <= LONG_MAX ->
      (converted (PyLong N) - N) mod 2 ^ 32 = 0)
  /\ (N < LONG_MIN \/ LONG_MAX < N -> converted (PyLong N) = -1).
Proof.
  intros Hinv Hcall.
  rewrite invoked_reaches_call in Hinv.
  destruct (launch_post_call v ck w Hinv) as [_ ->].
  rewrite Hcall. unfold raised_with, post_call. simpl exc_traceback.
  simpl exc_value. cbv iota. unfold computed_ret, print_and_exit.
  simpl exc_value.
  split; [|split; [|split]].
  - destruct (converted (PyLong N) =? 0); destruct fin; reflexivity.
  - apply cast_int_range.
  - intros Hr. unfold converted, PyLong_AsLong_result, PyLong_AsLong_value.
    replace ((LONG_MIN <=? N) && (N <=? LONG_MAX)) with true
      by (symmetry; apply andb_true_iff; split; apply Z.leb_le; lia).
    apply cast_int_congruent.
  - intros Hr. unfold converted, PyLong_AsLong_result, PyLong_AsLong_value.
    replace ((LONG_MIN <=? N) && (N <=? LONG_MAX)) with false.
    + reflexivity.
    + symmetry. apply andb_false_iff.
      destruct Hr; [left; apply Z.leb_gt | right; apply Z.leb_gt]; lia.
Qed.

Lemma integer_payload_exit_code_witness :
  exit_code (finish (launch Self_contained ck_helloworld
    (world_of None (raised (SystemExit (Some (PyLong (2 ^ 32 + 3))))))))
  = Some 3
  /\ exit_code (finish (launch Self_contained ck_helloworld
    (world_of None (raised (SystemExit (Some (PyLong (2 ^ 63))))))))
  = Some (-1).
Proof.
  split.
  - apply (integer_payload_exit_code Self_contained ck_helloworld
             (world_of None (raised (SystemExit (Some (PyLong (2 ^ 32 + 3))))))
             Display_default true (2 ^ 32 + 3)); reflexivity.
  - apply (integer_payload_exit_code Self_contained ck_helloworld
             (world_of None (raised (SystemExit (Some (PyLong (2 ^ 63))))))
             Display_default true (2 ^ 63)); reflexivity.
Defined.

(** An exception that comes without a traceback ends the process with
    -5 at once, whatever the exception is, an exit request included:
    nothing is reported, nothing is printed, and the interpreter is
    not finalized. *)
Theorem missing_traceback_exit v ck w x how fin :
  invoked (launch v ck w) = true ->
  w_call w = Call_raised {| exc_value := x; exc_traceback := false;
                            display := how; finalization_ok := fin |} ->
  after is_call (events (launch v ck w)) = Some []
  /\ finish (launch v ck w) = Exited (-5).
Proof.
  intros Hinv Hcall.
  rewrite invoked_reaches_call in Hinv.
  destruct (launch_post_call v ck w Hinv) as [-> ->].
  rewrite Hcall. split; reflexivity.
Qed.

Lemma missing_traceback_exit_witness :
  finish (launch Self_contained ck_helloworld
    (world_of None
       (Call_raised {| exc_value := SystemExit (Some (PyLong 0));
                       exc_traceback := false;
                       display := Display_default;
                       finalization_ok := true |})))
  = Exited (-5).
Proof.
  apply (missing_traceback_exit Self_contained ck_helloworld
           (world_of None
              (Call_raised {| exc_value := SystemExit (Some (PyLong 0));
                              exc_traceback := false;
                              display := Display_default;
                              finalization_ok := true |}))
           (SystemExit (Some (PyLong 0))) Display_default true);
    reflexivity.
Defined.

(** An exit request whose code cannot be read: the launcher says so,
    reports -10, and hands the exception to [PyErr_Print], which shows
    the exception in place of a code and ends the process through
    [Py_Exit] with 1, or with 120 when the finalization of the
    interpreter fails; [exit(-10)] is not reached. *)
Theorem unreadable_exit_code v ck w how fin :
  invoked (launch v ck w) = true ->
  w_call w = raised_with how fin (SystemExit None) ->
  after is_call (events (launch v ck w))
  = Some ([Ev_printf ("Could not determine exit code" ++ nl);
           Ev_printf (abnormal_message (-10));
           Ev_PyErr_Restore; Ev_PyErr_Print]
          ++ display_events how Diag_exit_payload ++ [Ev_Py_FinalizeEx])
  /\ finish (launch v ck w) = RuntimeExited (if fin then 1 else 120).
Proof.
  intros Hinv Hcall.
  rewrite invoked_reaches_call in Hinv.
  destruct (launch_post_call v ck w Hinv) as [-> ->].
  rewrite Hcall. split; reflexivity.
Qed.

Lemma unreadable_exit_code_witness :
  finish (launch (System_installed "3.11") ck_helloworld
    (world_of None (raised (SystemExit None)))) = RuntimeExited 1.
Proof.
  apply (unreadable_exit_code (System_installed "3.11") ck_helloworld
           (world_of None (raised (SystemExit None)))
           Display_default true); reflexivity.
Defined.

(** ** The configuration at initialisation *)

Lemma isolation_at_initialization_witness :
  isolated (expected_config (System_installed "3.11") ck_helloworld
              (world_of None Call_returned)) = 1
  /\ site_import (expected_config (System_installed "3.11") ck_helloworld
                    (world_of None Call_returned)) = 0.
Proof.
  destruct (isolation_at_initialization (System_installed "3.11")
              ck_helloworld (world_of None Call_returned)
              (expected_config (System_installed "3.11") ck_helloworld
                 (world_of None Call_returned)) eq_refl)
    as (Hiso & _ & _ & _ & _ & _ & Hsite).
  split; [exact Hiso | apply Hsite; discriminate].
Defined.

Lemma flatpak_search_path_witness :
  module_search_paths
    (expected_config Self_contained ck_helloworld
       (world_of None Call_returned))
  = ["/app/lib/python311.zip"; "/app/lib/python3.11";
     "/app/lib/python3.11/lib-dynload";
     "/app/briefcase/app_packages"; "/app/briefcase/app"].
Proof.
  apply (flatpak_search_path ck_helloworld (world_of None Call_returned)
           (expected_config Self_contained ck_helloworld
              (world_of None Call_returned))).
  reflexivity.
Defined.

(** The interpreter is initialised with the argument vector the
    process received, unchanged.  The Flatpak launcher sets the home of
    the interpreter to [/app] and leaves the import of [site] switched
    on; the system-package launcher sets no home. *)
Theorem arguments_and_home_at_initialization v ck w c :
  initialized_from (events (launch v ck w)) = Some c ->
  argv c = w_argv w
  /\ match v with
     | Self_contained => home c = Some "/app" /\ site_import c = 1
     | System_installed _ => home c = None
     end.
Proof.
  intros H. apply initialized_config in H. subst c.
  destruct v; repeat split.
Qed.

Lemma arguments_and_home_at_initialization_witness :
  argv (expected_config Self_contained ck_helloworld
          (world_of None Call_returned)) = ["helloworld"].
Proof.
  apply (arguments_and_home_at_initialization Self_contained ck_helloworld
           (world_of None Call_returned)
           (expected_config Self_contained ck_helloworld
              (world_of None Call_returned))).
  reflexivity.
Defined.

(** The [PYTHONPATH:] listing on standard output tells the truth: in a
    run that initialises the interpreter, the listed lines are the
    entries of the search path it is initialised with, in the same
    order. *)
Theorem path_listing_matches_search_path v ck w c :
  initialized_from (events (launch v ck w)) = Some c ->
  path_lines (events (launch v ck w))
  = map (fun p => "- " ++ p ++ nl)%string (module_search_paths c).
Proof.
  intros H. pose proof (initialized_config v ck w c H) as Hc. subst c.
  revert H.
  setup_cases
    ltac:(evaluate_text; intros H; first [ discriminate H | reflexivity ]);
    intros _; outcome_cases; evaluate_text; payload_cases; evaluate_text;
    reflexivity.
Qed.

Lemma path_listing_matches_search_path_witness :
  path_lines (events (launch (System_installed "3.11") ck_helloworld
    (world_of None Call_returned)))
  = ["- /usr/lib/python3.11" ++ nl;
     "- /usr/lib/python3.11/lib-dynload" ++ nl;
     "- /usr/lib/helloworld/app" ++ nl;
     "- /usr/lib/helloworld/app_packages" ++ nl]%string.
Proof.
  apply (path_listing_matches_search_path (System_installed "3.11")
           ck_helloworld (world_of None Call_returned)
           (expected_config (System_installed "3.11") ck_helloworld
              (world_of None Call_returned))).
  reflexivity.
Defined.

(** ** Paths *)

Lemma split_component (a s : string) :
  dot_free a = true ->
  split "."%char (a ++ String "."%char s)%string = a :: split "."%char s.
Proof.
  unfold dot_free. induction a as [|x a IH]; simpl; intros H.
  - reflexivity.
  - apply andb_true_iff in H. destruct H as [Hx Ha].
    apply negb_true_iff in Hx. rewrite Hx, (IH Ha). reflexivity.
Qed.

Lemma split_last_component a :
  dot_free a = true -> split "."%char a = [a].
Proof.
  unfold dot_free. induction a as [|x a IH]; simpl; intros H.
  - reflexivity.
  - apply andb_true_iff in H. destruct H as [Hx Ha].
    apply negb_true_iff in Hx. rewrite Hx, (IH Ha). reflexivity.
Qed.

Lemma string_append_assoc (a b c : string) :
  (a ++ (b ++ c) = (a ++ b) ++ c)%string.
Proof.
  induction a as [|x a IH]; simpl; [reflexivity | now rewrite IH].
Qed.

(** The Flatpak launcher names the standard library by the major and
    minor version only: with a Python version [major.minor] or
    [major.minor.rest] the archive is [pythonMAJORMINOR.zip], the
    unpacked tree is [pythonMAJOR.MINOR], and the extension modules are
    in its [lib-dynload]. *)
Theorem flatpak_version_tag ck (major minor rest : string) :
  dot_free major = true -> dot_free minor = true ->
  python_version ck = (major ++ "." ++ minor)%string
  \/ python_version ck = (major ++ "." ++ minor ++ "." ++ rest)%string ->
  Flatpak.stdlib_zip_path ck
  = ("/app/lib/python" ++ major ++ minor ++ ".zip")%string
  /\ Flatpak.stdlib_path ck
     = ("/app/lib/python" ++ major ++ "." ++ minor)%string
  /\ Flatpak.dynload_path ck
     = ("/app/lib/python" ++ major ++ "." ++ minor ++ "/lib-dynload")%string.
Proof.
  intros Hmajor Hminor Hversion.
  assert (Hsplit : firstn 2 (split "."%char (python_version ck))
                   = [major; minor]).
  { destruct Hversion as [-> | ->]; simpl append.
    - rewrite (split_component major minor Hmajor).
      now rewrite (split_last_component minor Hminor).
    - rewrite (split_component major _ Hmajor).
      rewrite (split_component minor rest Hminor).
      reflexivity. }
  unfold Flatpak.stdlib_zip_path, Flatpak.stdlib_path, Flatpak.dynload_path,
    Flatpak.py_tag_nodot, Flatpak.py_tag.
  rewrite Hsplit. simpl String.concat.
  rewrite <- !string_append_assoc. repeat split.
Qed.

Lemma flatpak_version_tag_witness :
  Flatpak.stdlib_zip_path ck_helloworld = "/app/lib/python311.zip"
  /\ Flatpak.stdlib_path ck_helloworld = "/app/lib/python3.11".
Proof.
  destruct (flatpak_version_tag ck_helloworld "3" "11" "4"
              eq_refl eq_refl (or_intror eq_refl)) as (Hzip & Hstd & _).
  split; [exact Hzip | exact Hstd].
Defined.

Lemma system_first_event ck PY_TAG w :
  hd_error (events (launch (System_installed PY_TAG) ck w))
  = Some (Ev_printf ("Install path: " ++ System.install_path w ++ nl)).
Proof.
  remember (System_installed PY_TAG) as v eqn:Ev.
  setup_cases ltac:(try discriminate Ev; reflexivity);
    try discriminate Ev; run_all; reflexivity.
Qed.

(** When the location of the executable cannot be resolved, the
    system-package launcher goes on all the same: it reports ["."] as
    the installation root and takes the application and the packages
    from directories relative to the working directory. *)
Theorem unresolved_executable ck PY_TAG w c :
  w_realpath_exe w = None ->
  initialized_from (events (launch (System_installed PY_TAG) ck w)) = Some c ->
  hd_error (events (launch (System_installed PY_TAG) ck w))
  = Some (Ev_printf ("Install path: ." ++ nl))
  /\ nth_error (module_search_paths c) 2
     = Some ("." ++ System.app_suffix ck)%string
  /\ nth_error (module_search_paths c) 3
     = Some ("." ++ System.app_packages_suffix ck)%string.
Proof.
  intros Hexe Hinit.
  rewrite system_first_event.
  rewrite (system_search_path_entries ck PY_TAG w c Hinit).
  simpl. rewrite (install_path_unresolved w Hexe). repeat split.
Qed.

Lemma unresolved_executable_witness :
  nth_error (module_search_paths
    (expected_config (System_installed "3.11") ck_helloworld
       (with_realpath (world_of None Call_returned) None))) 2
  = Some "./lib/helloworld/app".
Proof.
  apply (unresolved_executable ck_helloworld "3.11"
           (with_realpath (world_of None Call_returned) None)
           (expected_config (System_installed "3.11") ck_helloworld
              (with_realpath (world_of None Call_returned) None))
           eq_refl eq_refl).
Defined.
